(** * cp2p: the [examples/example.py] demonstration script

    The script imports four functions from the binding module
    [bindings.math], calls each of them once on literal arguments and prints
    one formatted line per result.  This development embeds the script in
    Rocq (an interpreter state, an exception-aware state monad, Python's
    formatting of the values involved) and proves the properties the
    specification states about it. *)

From Stdlib Require Import ZArith List String Ascii Bool Lia.
From Stdlib Require Import Decimal DecimalString DecimalZ.
From Stdlib Require Import Floats.SpecFloat.
Import ListNotations.

Local Open Scope string_scope.
Local Open Scope Z_scope.

(** ** Python values the script handles *)

Module PyValue.

(** A Python [float] is an IEEE 754 binary64 number: 53 bits of precision,
    exponents up to 1024. *)
Definition float : Type := spec_float.
Definition float_prec : Z := 53.
Definition float_emax : Z := 1024.
Definition float_emin : Z := emin float_prec float_emax.

(** [float(z)]: the integer rounded to the nearest float. *)
Definition float_of_Z (z : Z) : float :=
  binary_normalize float_prec float_emax z 0 false.

(** The float denoted by a decimal literal [m * 10^e10] of the source text
    (4.5 is [float_literal 45 (-1)]): one correctly rounded operation on
    two integers, which gives the nearest float when both are exactly
    representable, as they are for the short literals of the script. *)
Definition float_literal (m e10 : Z) : float :=
  if 0 <=? e10
  then SFmul float_prec float_emax (float_of_Z m) (float_of_Z (10 ^ e10))
  else SFdiv float_prec float_emax (float_of_Z m) (float_of_Z (10 ^ (- e10))).

(** The spec's [number]: an [int] or a [float]. *)
Inductive number : Type :=
| NInt (z : Z)
| NFloat (f : float).

(** The values that reach an f-string replacement field or an argument
    list in the script. *)
Inductive pyval : Type :=
| PyInt (z : Z)
| PyFloat (f : float)
| PyBool (b : bool).

Definition of_number (n : number) : pyval :=
  match n with
  | NInt z => PyInt z
  | NFloat f => PyFloat f
  end.

End PyValue.

(** ** Text: decimal digits, lines *)

Module Text.

Definition newline : ascii := "010"%char.

Definition nl : string := String newline EmptyString.

Fixpoint no_newline (s : string) : bool :=
  match s with
  | EmptyString => true
  | String c s' => negb (Ascii.eqb c newline) && no_newline s'
  end.

(** The lines of a text: maximal runs of characters, each ended by a line
    feed; a last run without its line feed still counts as a line. *)
Fixpoint lines_from (acc s : string) : list string :=
  match s with
  | EmptyString =>
      match acc with
      | EmptyString => []
      | _ => [acc]
      end
  | String c s' =>
      if Ascii.eqb c newline
      then acc :: lines_from EmptyString s'
      else lines_from (acc ++ String c EmptyString) s'
  end.

Definition lines (s : string) : list string := lines_from EmptyString s.

(** What [print] is called with line by line, as the stream receives it. *)
Fixpoint unlines (ls : list string) : string :=
  match ls with
  | [] => EmptyString
  | l :: ls' => l ++ nl ++ unlines ls'
  end.

(** [str(int)] for a non-negative integer. *)
Definition digits (z : Z) : string :=
  NilZero.string_of_uint (N.to_uint (Z.to_N z)).

(** The decimal text of an integer: a minus sign if negative, then its
    digits. *)
Definition int_text (z : Z) : string :=
  NilZero.string_of_int (Z.to_int z).

Fixpoint zeros (n : nat) : string :=
  match n with
  | O => EmptyString
  | S n' => String "0"%char (zeros n')
  end.

(** [s.rstrip(ch)] for a one-character [ch]. *)
Fixpoint rstrip (ch : ascii) (s : string) : string :=
  match s with
  | EmptyString => EmptyString
  | String c s' =>
      match rstrip ch s' with
      | EmptyString => if Ascii.eqb c ch then EmptyString else String c EmptyString
      | t => String c t
      end
  end.

(** [s[n:]] *)
Fixpoint drop (n : nat) (s : string) : string :=
  match n, s with
  | O, _ => s
  | S _, EmptyString => EmptyString
  | S n', String _ s' => drop n' s'
  end.

End Text.

(** ** [repr(float)]: the shortest decimal string that reads back as the float *)

Module FloatRepr.
Import PyValue Text.

(** A positive rational [num / den] compared with the decimal [d * 10^k]. *)
Definition cmp_decimal (d k num den : Z) : comparison :=
  if 0 <=? k
  then (d * 10 ^ k * den) ?= num
  else (d * den) ?= (num * 10 ^ (- k)).

(** [floor ((num / den) / 10^k)] *)
Definition floor_scaled (num den k : Z) : Z :=
  if 0 <=? k
  then num / (den * 10 ^ k)
  else (num * 10 ^ (- k)) / den.

(** The reals that round to the float [m * 2^e]: the interval between the
    midpoints to its two neighbours, as numerators over one denominator.
    The lower neighbour is half as far when [m] is the smallest mantissa
    of a binade; the end points belong to the interval when [m] is even
    (round half to even). *)
Record rounding_interval : Type := {
  ri_lo : Z;
  ri_val : Z;
  ri_hi : Z;
  ri_den : Z;
  ri_closed : bool
}.

Definition interval_of (m : positive) (e : Z) : rounding_interval :=
  let at_binade_start := (Zpos m =? 2 ^ (float_prec - 1)) && (float_emin <? e) in
  let lo := 4 * Zpos m - (if at_binade_start then 1 else 2) in
  let hi := 4 * Zpos m + 2 in
  let sh := e - 2 in
  let scale := if 0 <=? sh then 2 ^ sh else 1 in
  {| ri_lo := lo * scale;
     ri_val := 4 * Zpos m * scale;
     ri_hi := hi * scale;
     ri_den := if 0 <=? sh then 1 else 2 ^ (- sh);
     ri_closed := Z.even (Zpos m) |}.

Definition in_interval (i : rounding_interval) (d k : Z) : bool :=
  match cmp_decimal d k (ri_lo i) (ri_den i), cmp_decimal d k (ri_hi i) (ri_den i) with
  | Gt, Lt => true
  | Eq, Lt | Gt, Eq => ri_closed i
  | _, _ => false
  end.

(** [floor (log10 (ri_val / ri_den))], from the binary logarithm and one
    correction step. *)
Definition decimal_exponent (i : rounding_interval) : Z :=
  let l2 := Z.log2 (ri_val i) - Z.log2 (ri_den i) in
  let est := (l2 * 1233) / 4096 in
  match cmp_decimal 1 est (ri_val i) (ri_den i) with
  | Gt => est - 1
  | _ =>
      match cmp_decimal 1 (est + 1) (ri_val i) (ri_den i) with
      | Gt => est
      | _ => est + 1
      end
  end.

(** The [n]-digit decimal nearest to the value, of the two around it. *)
Definition nearer (i : rounding_interval) (q k : Z) : Z :=
  match cmp_decimal (2 * q + 1) k (2 * ri_val i) (ri_den i) with
  | Gt => q
  | Lt => q + 1
  | Eq => if Z.even q then q else q + 1
  end.

(** Try [n], [n+1], ... significant digits until a decimal falls in the
    rounding interval; 17 digits always suffice for a binary64. *)
Fixpoint shortest_from (fuel : nat) (i : rounding_interval) (p n : Z) : Z * Z :=
  let k := p - n + 1 in
  let q := floor_scaled (ri_val i) (ri_den i) k in
  match fuel with
  | O => (nearer i q k, k)
  | S fuel' =>
      match in_interval i q k, in_interval i (q + 1) k with
      | true, true => (nearer i q k, k)
      | true, false => (q, k)
      | false, true => (q + 1, k)
      | false, false => shortest_from fuel' i p (n + 1)
      end
  end.

Definition shortest_decimal (m : positive) (e : Z) : Z * Z :=
  let i := interval_of m e in
  shortest_from 16 i (decimal_exponent i) 1.

Definition exponent_text (e : Z) : string :=
  let sign := if e <? 0 then "-" else "+" in
  let pad := if Z.abs e <? 10 then "0" else "" in
  (sign ++ pad ++ digits (Z.abs e))%string.

(** CPython's [format_float_short] for format code ['r']: digits [ds] with
    the decimal point after the first [decpt] of them; exponent notation
    when [decpt <= -4] or [decpt > 16], and a fractional part always. *)
Definition format_float_short (ds : string) (decpt : Z) : string :=
  let nd := String.length ds in
  let pt := Z.to_nat decpt in
  if (decpt <=? -4) || (16 <? decpt)
  then
    let frac := if (1 <? nd)%nat
                then ("." ++ String.substring 1 (nd - 1) ds)%string
                else "" in
    (String.substring 0 1 ds ++ frac ++ "e" ++ exponent_text (decpt - 1))%string
  else if decpt <=? 0
  then ("0." ++ zeros (Z.to_nat (- decpt)) ++ ds)%string
  else if Z.of_nat nd <=? decpt
  then (ds ++ zeros (pt - nd) ++ ".0")%string
  else (String.substring 0 pt ds ++ "." ++ String.substring pt (nd - pt) ds)%string.

Definition sign_text (s : bool) : string := if s then "-" else "".

(** [float.__repr__], which is also [float.__str__] and
    [float.__format__] with an empty format specification. *)
Definition float_repr (f : float) : string :=
  match f with
  | S754_zero s => (sign_text s ++ "0.0")%string
  | S754_infinity s => (sign_text s ++ "inf")%string
  | S754_nan => "nan"
  | S754_finite s m e =>
      let '(d, k) := shortest_decimal m e in
      let all := digits d in
      (sign_text s
         ++ format_float_short (rstrip "0" all) (k + Z.of_nat (String.length all)))%string
  end.

End FloatRepr.

(** ** The interpreter: state, exceptions, effects *)

Module Py.
Import PyValue Text.

(** The [code] of a [SystemExit]: [None], an [int], or another object,
    given by its text. *)
Inductive exit_arg : Type :=
| ExitNone
| ExitInt (n : Z)
| ExitOther (text : string).

(** A raised exception: its class and its message, and for an instance of
    [SystemExit] its [code]. *)
Record pyexn : Type := {
  exn_class : string;
  exn_message : string;
  exn_exit : option exit_arg
}.

(** What evaluating an expression gives: a value, or a raised exception. *)
Inductive result (A : Type) : Type :=
| Ok (a : A)
| Raise (e : pyexn).
Arguments Ok {A} a.
Arguments Raise {A} e.

Definition map_result {A B : Type} (f : A -> B) (r : result A) : result B :=
  match r with
  | Ok a => Ok (f a)
  | Raise e => Raise e
  end.

(** What the script does that an observer can see, in order. *)
Inductive event : Type :=
| Call (fn : string) (args : list pyval)
| Print (text : string).

(** The interpreter-global state in the script's reach: [sys.argv],
    [os.environ], the working directory, the files the process holds open
    (descriptor and path), [sys.path], the limit
    [sys.get_int_max_str_digits()] on the digits of an [int] turned into
    text, and the text written to standard output so far.  [history] is
    not Python state: it records the calls into the binding module and the
    calls of [print] as they happen. *)
Record interp : Type := {
  argv : list string;
  environ : list (string * string);
  cwd : string;
  open_files : list (Z * string);
  sys_path : list string;
  int_max_str_digits : Z;
  stdout : string;
  history : list event
}.

Definition set_sys_path (p : list string) (s : interp) : interp :=
  {| argv := argv s; environ := environ s; cwd := cwd s;
     open_files := open_files s;
     sys_path := p; int_max_str_digits := int_max_str_digits s;
     stdout := stdout s; history := history s |}.

Definition set_stdout (o : string) (s : interp) : interp :=
  {| argv := argv s; environ := environ s; cwd := cwd s;
     open_files := open_files s;
     sys_path := sys_path s; int_max_str_digits := int_max_str_digits s;
     stdout := o; history := history s |}.

Definition record (ev : event) (s : interp) : interp :=
  {| argv := argv s; environ := environ s; cwd := cwd s;
     open_files := open_files s;
     sys_path := sys_path s; int_max_str_digits := int_max_str_digits s;
     stdout := stdout s;
     history := (history s ++ [ev])%list |}.

(** Statements: they read and update the interpreter state and either
    complete with a value or raise; the state reached when an exception is
    raised is kept, since output already written stays written. *)
Definition M (A : Type) : Type := interp -> result A * interp.

Definition ret {A : Type} (a : A) : M A := fun s => (Ok a, s).

Definition bind {A B : Type} (m : M A) (k : A -> M B) : M B :=
  fun s =>
    match m s with
    | (Ok a, s') => k a s'
    | (Raise e, s') => (Raise e, s')
    end.

Notation "x <- m ;; k" := (bind m (fun x => k))
  (at level 61, m at next level, right associativity).
Notation "m ;; k" := (bind m (fun _ => k))
  (at level 61, right associativity).

(** *** Integers as text, and the limit on their digits *)

(** Below this many characters an [int] is turned into text unchecked;
    a limit that is set is at least as large. *)
Definition str_digits_check_threshold : Z := 640.


Definition int_too_long (limit : Z) : pyexn :=
  {| exn_class := "ValueError";
     exn_message :=
       "Exceeds the limit (" ++ digits limit
         ++ " digits) for integer string conversion; "
         ++ "use sys.set_int_max_str_digits() to increase the limit";
     exn_exit := None |}.

(** [str(z)] under the limit [limit] (0: no limit): [ValueError] when the
    text is longer than the threshold and has more digits, the sign not
    counted, than the limit. *)
Definition str_int (limit z : Z) : result string :=
  let text := int_text z in
  let len := Z.of_nat (String.length text) in
  let ndigits := if z <? 0 then len - 1 else len in
  if (str_digits_check_threshold <? len) && (0 <? limit) && (limit <? ndigits)
  then Raise (int_too_long limit)
  else Ok text.

(** The text of a value: what [format(v, '')] gives when it gives
    something. *)
Definition text_of (v : pyval) : string :=
  match v with
  | PyInt z => int_text z
  | PyFloat f => FloatRepr.float_repr f
  | PyBool true => "True"
  | PyBool false => "False"
  end.

(** [format(v, '')] under the limit [limit]: only an [int] can fail. *)
Definition format_with (limit : Z) (v : pyval) : result string :=
  match v with
  | PyInt z => str_int limit z
  | _ => Ok (text_of v)
  end.

(** [format(v, '')], what an f-string replacement field [{v}] expands to. *)
Definition format_value (v : pyval) : M string :=
  fun s => (format_with (int_max_str_digits s) v, s).

(** An f-string: literal text and replacement fields, evaluated from left
    to right and joined. *)
Inductive fpart : Type :=
| Lit (text : string)
| Field (v : pyval).

Fixpoint fstring (parts : list fpart) : M string :=
  match parts with
  | [] => ret ""
  | Lit text :: rest =>
      tail <- fstring rest ;; ret (text ++ tail)
  | Field v :: rest =>
      text <- format_value v ;;
      tail <- fstring rest ;; ret (text ++ tail)
  end.

(** [print(text)]: the text and a line feed go to standard output, which
    is taken to accept every write. *)
Definition print (text : string) : M unit :=
  fun s =>
    (Ok tt, record (Print text) (set_stdout (stdout s ++ text ++ nl) s)).

(** [sys.path.append(p)] *)
Definition sys_path_append (p : string) : M unit :=
  fun s => (Ok tt, set_sys_path (sys_path s ++ [p])%list s).

(** [os.getcwd()] *)
Definition getcwd : M string := fun s => (Ok (cwd s), s).

(** How a run of the program ends: at the end of the module body; by a
    [SystemExit] that reached the top level, which ends the process
    without a traceback and with a status taken from its [code]; or by
    any other exception that reached the top level. *)
Inductive termination : Type :=
| ExitSuccess
| SystemExited (code : exit_arg)
| UnhandledException (e : pyexn).

(** The end of a run that an exception nothing caught brings about. *)
Definition ended_by (e : pyexn) : termination :=
  match exn_exit e with
  | Some code => SystemExited code
  | None => UnhandledException e
  end.

(** *** The interpreter at start-up *)








End Py.

(** ** The binding module's interface, and the script *)

Module Example.
Import PyValue Text Py.

(** The four functions [from bindings.math import ...] binds, with the
    signatures the interface gives them.  The functions are not part of
    the script; a call yields a value or raises. *)
Record bindings : Type := {
  add : number -> number -> result number;
  multiply : number -> number -> result number;
  square_root : number -> result number;
  is_even : Z -> result bool
}.

(** A call into the binding module: recorded, then answered by the
    binding. *)
Definition call_add (b : bindings) (x y : number) : M number :=
  fun s => (add b x y, record (Call "add" [of_number x; of_number y]) s).

Definition call_multiply (b : bindings) (x y : number) : M number :=
  fun s => (multiply b x y, record (Call "multiply" [of_number x; of_number y]) s).

Definition call_square_root (b : bindings) (x : number) : M number :=
  fun s => (square_root b x, record (Call "square_root" [of_number x]) s).

Definition call_is_even (b : bindings) (n : Z) : M bool :=
  fun s => (is_even b n, record (Call "is_even" [PyInt n]) s).

(** The float literals of the source text. *)
Definition lit_4_5 : float := float_literal 45 (-1).
Definition lit_2_0 : float := float_literal 20 (-1).
Definition lit_16_0 : float := float_literal 160 (-1).

(** [def main():] *)
Definition main (b : bindings) : M unit :=
  result <- call_add b (NInt 5) (NInt 3) ;;
  text <- fstring [Lit "5 + 3 = "; Field (of_number result)] ;;
  print text ;;
  result <- call_multiply b (NFloat lit_4_5) (NFloat lit_2_0) ;;
  text <- fstring [Lit "4.5 * 2.0 = "; Field (of_number result)] ;;
  print text ;;
  result <- call_square_root b (NFloat lit_16_0) ;;
  text <- fstring [Lit "sqrt(16.0) = "; Field (of_number result)] ;;
  print text ;;
  let number := 42 in
  result <- call_is_even b number ;;
  text <- fstring [Lit "Is "; Field (PyInt number); Lit " even? ";
                   Field (PyBool result)] ;;
  print text.

Section Script.

(** [os.path.abspath], given the working directory, and
    [os.path.dirname]: library functions of the platform. *)
Variable os_path_abspath : string -> string -> string.
Variable os_path_dirname : string -> string.

(** The import system resolving [bindings.math] in the state it is
    asked in: the module's four functions, or an exception.  What loading
    the module does to the interpreter lies outside the script and is not
    described. *)
Variable import_bindings_math : interp -> result bindings.

Definition abspath (p : string) : M string :=
  d <- getcwd ;; ret (os_path_abspath d p).

(** Lines 1 to 3: the parent of the script's directory joins the module
    search path. *)
Definition preamble (file : string) : M unit :=
  here <- abspath file ;;
  sys_path_append (os_path_dirname (os_path_dirname here)).

(** Line 5. *)
Definition from_bindings_math_import : M bindings :=
  fun s => (import_bindings_math s, s).

(** The module body, run with [__file__ = file] and [__name__ = name]. *)
Definition script (file name : string) : M unit :=
  preamble file ;;
  b <- from_bindings_math_import ;;
  if String.eqb name "__main__" then main b else ret tt.

(** Running the file as a program: no exception leaves the module body, or
    one does and ends the run. *)
Definition run (file : string) (s : interp) : termination * interp :=
  match script file "__main__" s with
  | (Ok _, s') => (ExitSuccess, s')
  | (Raise e, s') => (ended_by e, s')
  end.

(** The interpreter state in which the import statement is executed. *)
Definition at_import (file : string) (s : interp) : interp :=
  snd (preamble file s).

End Script.

(** *** The lines the script is to print *)

(** The line for each result: the literal text of the f-string, then the
    text of the value. *)
Definition add_line (r : number) : string :=
  "5 + 3 = " ++ text_of (of_number r).
Definition multiply_line (r : number) : string :=
  "4.5 * 2.0 = " ++ text_of (of_number r).
Definition square_root_line (r : number) : string :=
  "sqrt(16.0) = " ++ text_of (of_number r).
Definition is_even_line (number : Z) (r : bool) : string :=
  "Is " ++ text_of (PyInt number) ++ " even? " ++ text_of (PyBool r).

(** The outcome of the [k]-th call of [main], counted from 1: the value
    returned or the exception raised. *)
Definition call_outcome (b : bindings) (k : nat) : option (result pyval) :=
  match k with
  | 1 => Some (map_result of_number (add b (NInt 5) (NInt 3)))
  | 2 => Some (map_result of_number (multiply b (NFloat lit_4_5) (NFloat lit_2_0)))
  | 3 => Some (map_result of_number (square_root b (NFloat lit_16_0)))
  | 4 => Some (map_result PyBool (is_even b 42))
  | _ => None
  end%nat.

(** The line that reports the result of the [k]-th call, when that call
    returns. *)
Definition line_for (b : bindings) (k : nat) : option string :=
  match k with
  | 1 => match add b (NInt 5) (NInt 3) with
         | Ok r => Some (add_line r)
         | Raise _ => None
         end
  | 2 => match multiply b (NFloat lit_4_5) (NFloat lit_2_0) with
         | Ok r => Some (multiply_line r)
         | Raise _ => None
         end
  | 3 => match square_root b (NFloat lit_16_0) with
         | Ok r => Some (square_root_line r)
         | Raise _ => None
         end
  | 4 => match is_even b 42 with
         | Ok r => Some (is_even_line 42 r)
         | Raise _ => None
         end
  | _ => None
  end%nat.

(** *** Observations on a run from [s] to [s'] *)

(** The text added to standard output. *)
Definition output (s s' : interp) : string :=
  drop (String.length (stdout s)) (stdout s').

(** The calls and prints that happened. *)
Definition events (s s' : interp) : list event :=
  skipn (List.length (history s)) (history s').

Definition calls_of (h : list event) : list event :=
  filter (fun ev => match ev with Call _ _ => true | Print _ => false end) h.

(** How many calls into the binding module the run made. *)
Definition calls_made (s s' : interp) : nat :=
  List.length (calls_of (events s s')).

(** The text printed right after the first call of [fn], if any. *)
Fixpoint printed_after (fn : string) (h : list event) : option string :=
  match h with
  | [] => None
  | Call g _ :: rest =>
      match rest with
      | Print t :: _ => if String.eqb g fn then Some t else printed_after fn rest
      | _ => printed_after fn rest
      end
  | Print _ :: rest => printed_after fn rest
  end.

(** The four calls of [main], as the source orders them. *)
Definition the_four_calls : list event :=
  [ Call "add" [PyInt 5; PyInt 3];
    Call "multiply" [PyFloat lit_4_5; PyFloat lit_2_0];
    Call "square_root" [PyFloat lit_16_0];
    Call "is_even" [PyInt 42] ].


(** Why [main] stops at a step: the call raised, or the f-string on its
    result did. *)
Inductive cause : Type :=
| CallRaised
| FormatRaised.

(** [yields limit c r]: the call outcome [c] is the value [r], and [r] can
    be put into an f-string under the digit limit [limit]. *)
Definition yields (limit : Z) (c : result number) (r : number) : Prop :=
  c = Ok r /\ format_with limit (of_number r) = Ok (text_of (of_number r)).

(** [stops_at b limit k c e ls]: under the digit limit [limit], the [k]-th
    step of [main] is the first to fail, for the reason [c] and with the
    exception [e]; [ls] are the lines of the steps before it. *)
Inductive stops_at (b : bindings) (limit : Z) :
    nat -> cause -> pyexn -> list string -> Prop :=
| stops_at_add e :
    add b (NInt 5) (NInt 3) = Raise e ->
    stops_at b limit 1 CallRaised e []
| stops_at_add_line r1 e :
    add b (NInt 5) (NInt 3) = Ok r1 ->
    format_with limit (of_number r1) = Raise e ->
    stops_at b limit 1 FormatRaised e []
| stops_at_multiply r1 e :
    yields limit (add b (NInt 5) (NInt 3)) r1 ->
    multiply b (NFloat lit_4_5) (NFloat lit_2_0) = Raise e ->
    stops_at b limit 2 CallRaised e [add_line r1]
| stops_at_multiply_line r1 r2 e :
    yields limit (add b (NInt 5) (NInt 3)) r1 ->
    multiply b (NFloat lit_4_5) (NFloat lit_2_0) = Ok r2 ->
    format_with limit (of_number r2) = Raise e ->
    stops_at b limit 2 FormatRaised e [add_line r1]
| stops_at_square_root r1 r2 e :
    yields limit (add b (NInt 5) (NInt 3)) r1 ->
    yields limit (multiply b (NFloat lit_4_5) (NFloat lit_2_0)) r2 ->
    square_root b (NFloat lit_16_0) = Raise e ->
    stops_at b limit 3 CallRaised e [add_line r1; multiply_line r2]
| stops_at_square_root_line r1 r2 r3 e :
    yields limit (add b (NInt 5) (NInt 3)) r1 ->
    yields limit (multiply b (NFloat lit_4_5) (NFloat lit_2_0)) r2 ->
    square_root b (NFloat lit_16_0) = Ok r3 ->
    format_with limit (of_number r3) = Raise e ->
    stops_at b limit 3 FormatRaised e [add_line r1; multiply_line r2]
| stops_at_is_even r1 r2 r3 e :
    yields limit (add b (NInt 5) (NInt 3)) r1 ->
    yields limit (multiply b (NFloat lit_4_5) (NFloat lit_2_0)) r2 ->
    yields limit (square_root b (NFloat lit_16_0)) r3 ->
    is_even b 42 = Raise e ->
    stops_at b limit 4 CallRaised e
      [add_line r1; multiply_line r2; square_root_line r3].

(** The calls [cs] in order, each followed by the print of its line while
    lines are left: the record of a run that printed [ls]. *)
Fixpoint interleave (cs : list event) (ls : list string) : list event :=
  match cs, ls with
  | [], _ => []
  | c :: _, [] => [c]
  | c :: cs', l :: ls' => c :: Print l :: interleave cs' ls'
  end.

(** [s'] is [s] after writing [w] and doing [evs]; the rest is as it was. *)
Definition advanced (s s' : interp) (w : string) (evs : list event) : Prop :=
  argv s' = argv s /\ environ s' = environ s /\ cwd s' = cwd s
  /\ open_files s' = open_files s
  /\ sys_path s' = sys_path s
  /\ int_max_str_digits s' = int_max_str_digits s
  /\ stdout s' = stdout s ++ w
  /\ history s' = (history s ++ evs)%list.

(** Nothing of the interpreter state but standard output differs between
    [s] and [s'] ([history] is a record of the run, not Python state). *)
Definition same_outside_stdout (s s' : interp) : Prop :=
  argv s' = argv s /\ environ s' = environ s /\ cwd s' = cwd s
  /\ open_files s' = open_files s
  /\ sys_path s' = sys_path s
  /\ int_max_str_digits s' = int_max_str_digits s.

End Example.

(** ** The binding module *)

Module MathBindings.
Import PyValue Py.

(** Modelled from the spec: a [number] argument taken as a [float], as
    mixed arithmetic on Python numbers does. *)
Definition to_float (n : number) : float :=
  match n with
  | NInt z => float_of_Z z
  | NFloat f => f
  end.

(** Modelled from the spec: [add] of [bindings.math] is not in the source;
    the interface lists it as [add(a: number, b: number) -> number], an
    arithmetic function: the sum, an [int] for two [int]s and a [float]
    otherwise. *)
Definition add (a b : number) : result number :=
  match a, b with
  | NInt x, NInt y => Ok (NInt (x + y))
  | _, _ => Ok (NFloat (SFadd float_prec float_emax (to_float a) (to_float b)))
  end.

(** Modelled from the spec: [multiply] of [bindings.math] is not in the
    source; the interface lists it as
    [multiply(a: number, b: number) -> number]: the product. *)
Definition multiply (a b : number) : result number :=
  match a, b with
  | NInt x, NInt y => Ok (NInt (x * y))
  | _, _ => Ok (NFloat (SFmul float_prec float_emax (to_float a) (to_float b)))
  end.

(** Modelled from the spec: [square_root] of [bindings.math] is not in the
    source; the interface lists it as [square_root(a: number) -> number]:
    the correctly rounded square root of the argument as a [float]. *)
Definition square_root (a : number) : result number :=
  Ok (NFloat (SFsqrt float_prec float_emax (to_float a))).

(** Modelled from the spec: [is_even] of [bindings.math] is not in the
    source; the interface lists it as [is_even(n: integer) -> boolean]:
    whether [n] is divisible by two. *)
Definition is_even (n : Z) : result bool := Ok (Z.even n).

(** Modelled from the spec: the module [bindings.math] as the script
    imports it, made of the four functions above. *)
Definition math : Example.bindings :=
  {| Example.add := add;
     Example.multiply := multiply;
     Example.square_root := square_root;
     Example.is_even := is_even |}.

End MathBindings.

(** ** A POSIX [os.path], and sample runs *)

Module PosixPath.
Import Text.

Definition sep : ascii := "/"%char.

Fixpoint has_sep (s : string) : bool :=
  match s with
  | EmptyString => false
  | String c s' => Ascii.eqb c sep || has_sep s'
  end.

Fixpoint all_sep (s : string) : bool :=
  match s with
  | EmptyString => true
  | String c s' => Ascii.eqb c sep && all_sep s'
  end.

(** [p[:p.rfind('/') + 1]] *)
Fixpoint upto_last_sep (p : string) : string :=
  match p with
  | EmptyString => EmptyString
  | String c p' => if has_sep p then String c (upto_last_sep p') else EmptyString
  end.

Definition nonempty (s : string) : bool :=
  match s with
  | EmptyString => false
  | String _ _ => true
  end.

(** [posixpath.dirname] *)
Definition dirname (p : string) : string :=
  let head := upto_last_sep p in
  if nonempty head && negb (all_sep head) then rstrip sep head else head.

Definition isabs (p : string) : bool :=
  match p with
  | String c _ => Ascii.eqb c sep
  | EmptyString => false
  end.

Fixpoint ends_with_sep (s : string) : bool :=
  match s with
  | EmptyString => false
  | String c EmptyString => Ascii.eqb c sep
  | String _ s' => ends_with_sep s'
  end.

(** [posixpath.join(a, p)] *)
Definition join (a p : string) : string :=
  if isabs p then p
  else if negb (nonempty a) || ends_with_sep a then a ++ p
  else a ++ "/" ++ p.

(** [p.split('/')] *)
Fixpoint split_from (acc p : string) : list string :=
  match p with
  | EmptyString => [acc]
  | String c p' =>
      if Ascii.eqb c sep
      then acc :: split_from EmptyString p'
      else split_from (acc ++ String c EmptyString) p'
  end.

(** The loop of [posixpath.normpath]; [kept] holds the components kept so
    far, last first. *)
Fixpoint norm_comps (rooted : bool) (comps kept : list string) : list string :=
  match comps with
  | [] => List.rev kept
  | comp :: rest =>
      if String.eqb comp "" || String.eqb comp "."
      then norm_comps rooted rest kept
      else
        match kept with
        | [] =>
            if negb (String.eqb comp "..") || negb rooted
            then norm_comps rooted rest [comp]
            else norm_comps rooted rest []
        | top :: below =>
            if negb (String.eqb comp "..") || String.eqb top ".."
            then norm_comps rooted rest (comp :: kept)
            else norm_comps rooted rest below
        end
  end.

(** [posixpath.normpath] *)
Definition normpath (p : string) : string :=
  match p with
  | EmptyString => "."
  | _ =>
      let slashes :=
        if isabs p
        then if isabs (drop 1 p) && negb (isabs (drop 2 p)) then "//" else "/"
        else "" in
      let body := String.concat "/" (norm_comps (isabs p) (split_from "" p) []) in
      match slashes ++ body with
      | EmptyString => "."
      | q => q
      end
  end.

(** [posixpath.abspath], with the working directory as an argument. *)
Definition abspath (cwd p : string) : string :=
  normpath (if isabs p then p else join cwd p).

End PosixPath.

Module Samples.
Import PyValue Py Example.

Definition file : string := "examples/example.py".

Definition start : interp :=
  {| argv := ["examples/example.py"];
     environ := [("HOME", "/home/dev")];
     cwd := "/home/dev/cp2p";
     open_files := [(0, "/dev/tty"); (1, "/dev/tty"); (2, "/dev/tty")];
     sys_path := ["/home/dev/cp2p/examples"];
     int_max_str_digits := 4300;
     stdout := "";
     history := [] |}.


(** A third start: as the first, but with the digit limit set in the
    environment. *)
Definition start_limited : interp :=
  {| argv := ["examples/example.py"];
     environ := [("HOME", "/home/dev"); ("PYTHONINTMAXSTRDIGITS", "640")];
     cwd := "/home/dev/cp2p";
     open_files := [(0, "/dev/tty"); (1, "/dev/tty"); (2, "/dev/tty")];
     sys_path := ["/home/dev/cp2p/examples"];
     int_max_str_digits := 640;
     stdout := "";
     history := [] |}.

Definition import_math (_ : interp) : result bindings := Ok MathBindings.math.

Definition module_not_found : pyexn :=
  {| exn_class := "ModuleNotFoundError";
     exn_message := "No module named 'bindings'";
     exn_exit := None |}.

Definition import_missing (_ : interp) : result bindings := Raise module_not_found.

Definition os_error : pyexn :=
  {| exn_class := "OSError"; exn_message := "library call failed";
     exn_exit := None |}.

(** [SystemExit(0)] *)
Definition system_exit_0 : pyexn :=
  {| exn_class := "SystemExit"; exn_message := "0"; exn_exit := Some (ExitInt 0) |}.

(** Bindings whose [k]-th function raises [e], the others being the
    arithmetic ones. *)
Definition failing_with (e : pyexn) (k : nat) : bindings :=
  {| add := fun a b => if Nat.eqb k 1 then Raise e else MathBindings.add a b;
     multiply := fun a b => if Nat.eqb k 2 then Raise e else MathBindings.multiply a b;
     square_root := fun a => if Nat.eqb k 3 then Raise e else MathBindings.square_root a;
     is_even := fun n => if Nat.eqb k 4 then Raise e else MathBindings.is_even n |}.

Definition failing (k : nat) : bindings := failing_with os_error k.

Definition import_failing (k : nat) (_ : interp) : result bindings := Ok (failing k).



(** The [int] written with [n] nines, [10^n - 1]. *)
Fixpoint nines (n : nat) : uint :=
  match n with
  | O => Nil
  | S n' => D9 (nines n')
  end.

Definition long_int (n : nat) : Z := Z.of_uint (nines n).

(** An [add] that returns an [int] of 641 digits, and a [multiply] that
    raises. *)
Definition long_then_failing : bindings :=
  {| add := fun _ _ => Ok (NInt (long_int 641));
     multiply := fun _ _ => Raise os_error;
     square_root := MathBindings.square_root;
     is_even := MathBindings.is_even |}.

(** What the specification expects on standard output. *)
Definition expected_lines : list string :=
  ["5 + 3 = 8"; "4.5 * 2.0 = 9.0"; "sqrt(16.0) = 4.0"; "Is 42 even? True"].

Definition run_posix (imp : interp -> result bindings) (s : interp) : termination * interp :=
  run PosixPath.abspath PosixPath.dirname imp file s.

End Samples.

(** ** What a caller of [main] can tell apart *)

Module Observe.
Import PyValue Py Example.

(** Bindings that answer every call with the same value, whatever the
    arguments. *)
Definition constant (r1 r2 r3 : number) (r4 : bool) : bindings :=
  {| add := fun _ _ => Ok r1;
     multiply := fun _ _ => Ok r2;
     square_root := fun _ => Ok r3;
     is_even := fun _ => Ok r4 |}.

(** The module body run twice in one interpreter, as a program each time. *)
Definition run_twice (os_path_abspath : string -> string -> string)
    (os_path_dirname : string -> string)
    (import_bindings_math : interp -> result bindings)
    (file : string) (s : interp) : termination * interp :=
  run os_path_abspath os_path_dirname import_bindings_math file
    (snd (run os_path_abspath os_path_dirname import_bindings_math file s)).

End Observe.

(** * Properties *)

(** ** Text *)

Module TextFacts.
Import Text.

Lemma no_newline_app (a b : string) :
  no_newline (a ++ b) = no_newline a && no_newline b.
Proof.
  induction a as [|c a IH]; simpl.
  - reflexivity.
  - rewrite IH. now rewrite andb_assoc.
Qed.

Lemma no_newline_substring (s : string) :
  no_newline s = true ->
  forall n m : nat, no_newline (String.substring n m s) = true.
Proof.
  induction s as [|c s IH]; intros H n m.
  - destruct n, m; reflexivity.
  - simpl in H. apply andb_true_iff in H as [Hc Hs].
    destruct n as [|n]; simpl.
    + destruct m as [|m]; simpl; [reflexivity|].
      rewrite Hc. simpl. apply (IH Hs 0%nat m).
    + apply (IH Hs n m).
Qed.

Lemma no_newline_zeros (n : nat) : no_newline (zeros n) = true.
Proof. induction n; simpl; auto. Qed.

Lemma no_newline_rstrip (ch : ascii) (s : string) :
  no_newline s = true -> no_newline (rstrip ch s) = true.
Proof.
  induction s as [|c s IH]; simpl; intros H; [reflexivity|].
  apply andb_true_iff in H as [Hc Hs]. specialize (IH Hs).
  destruct (rstrip ch s) as [|c' t].
  - destruct (Ascii.eqb c ch); simpl; [reflexivity|]. now rewrite Hc.
  - change (no_newline (String c (String c' t)))
      with (negb (Ascii.eqb c newline) && no_newline (String c' t)).
    now rewrite Hc, IH.
Qed.

Lemma no_newline_uint (d : uint) :
  no_newline (NilEmpty.string_of_uint d) = true.
Proof. induction d; simpl; auto. Qed.

Lemma no_newline_uint0 (d : uint) :
  no_newline (NilZero.string_of_uint d) = true.
Proof.
  destruct d; try reflexivity;
    unfold NilZero.string_of_uint; apply no_newline_uint.
Qed.

Lemma no_newline_digits (z : Z) : no_newline (digits z) = true.
Proof. apply no_newline_uint0. Qed.

Lemma no_newline_int_text (z : Z) : no_newline (int_text z) = true.
Proof.
  unfold int_text, NilZero.string_of_int.
  destruct (Z.to_int z); simpl; apply no_newline_uint0.
Qed.

Lemma append_assoc (a b c : string) : ((a ++ b) ++ c = a ++ (b ++ c))%string.
Proof. induction a as [|x a IH]; simpl; [reflexivity | now rewrite IH]. Qed.

Lemma append_empty (a : string) : (a ++ "" = a)%string.
Proof. induction a as [|x a IH]; simpl; [reflexivity | now rewrite IH]. Qed.

(** A line and its line feed at the head of a text make one line. *)
Lemma lines_from_line (l : string) :
  no_newline l = true ->
  forall acc rest : string,
    lines_from acc (l ++ nl ++ rest) = (acc ++ l)%string :: lines_from "" rest.
Proof.
  induction l as [|c l IH]; intros H acc rest.
  - simpl. now rewrite append_empty.
  - simpl in H. apply andb_true_iff in H as [Hc Hl].
    apply negb_true_iff in Hc.
    change (lines_from acc (String c (l ++ nl ++ rest))
            = (acc ++ String c l)%string :: lines_from "" rest).
    cbn [lines_from]. rewrite Hc, (IH Hl). now rewrite append_assoc.
Qed.

(** Printing lines without line feeds of their own gives those lines. *)
Lemma lines_unlines (ls : list string) :
  Forall (fun l => no_newline l = true) ls -> lines (unlines ls) = ls.
Proof.
  unfold lines. induction 1 as [|l ls Hl _ IH]; cbn [unlines].
  - reflexivity.
  - now rewrite (lines_from_line l Hl), IH.
Qed.

Lemma drop_app (a w : string) : drop (String.length a) (a ++ w) = w.
Proof. induction a as [|c a IH]; simpl; [now destruct w | exact IH]. Qed.

Lemma skipn_app_exact {A : Type} (a w : list A) :
  skipn (List.length a) (a ++ w) = w.
Proof. induction a as [|x a IH]; simpl; [reflexivity | exact IH]. Qed.

End TextFacts.

(** ** Formatting: one line, and sometimes an exception *)

Module FormatFacts.
Import PyValue Text TextFacts FloatRepr Py Example.

Create HintDb one_line discriminated.

#[local] Hint Resolve no_newline_zeros no_newline_digits no_newline_int_text
  no_newline_substring no_newline_rstrip : one_line.

(** Split a concatenation into its pieces and close each with the facts
    on the text functions. *)
Ltac one_line :=
  repeat rewrite no_newline_app;
  repeat (apply andb_true_iff; split);
  auto with one_line.

Lemma no_newline_exponent_text (e : Z) : no_newline (exponent_text e) = true.
Proof.
  unfold exponent_text.
  destruct (e <? 0); destruct (Z.abs e <? 10); one_line.
Qed.

#[local] Hint Resolve no_newline_exponent_text : one_line.

Lemma no_newline_format_float_short (ds : string) (decpt : Z) :
  no_newline ds = true -> no_newline (format_float_short ds decpt) = true.
Proof.
  intros H. unfold format_float_short.
  destruct ((decpt <=? -4) || (16 <? decpt)).
  - destruct (1 <? String.length ds)%nat; one_line.
  - destruct (decpt <=? 0); [one_line|].
    destruct (Z.of_nat (String.length ds) <=? decpt); one_line.
Qed.

Lemma no_newline_float_repr (f : float) : no_newline (float_repr f) = true.
Proof.
  destruct f as [s|s| |s m e]; cbn [float_repr].
  - now destruct s.
  - now destruct s.
  - reflexivity.
  - destruct (shortest_decimal m e) as [d k].
    rewrite no_newline_app. apply andb_true_iff. split.
    + now destruct s.
    + apply no_newline_format_float_short. one_line.
Qed.

Lemma no_newline_text_of (v : pyval) : no_newline (text_of v) = true.
Proof.
  destruct v as [z|f|[|]]; cbn [text_of].
  - apply no_newline_int_text.
  - apply no_newline_float_repr.
  - reflexivity.
  - reflexivity.
Qed.

#[local] Hint Resolve no_newline_text_of : one_line.

Lemma no_newline_add_line (r : number) : no_newline (add_line r) = true.
Proof. unfold add_line. one_line. Qed.

Lemma no_newline_multiply_line (r : number) : no_newline (multiply_line r) = true.
Proof. unfold multiply_line. one_line. Qed.

Lemma no_newline_square_root_line (r : number) :
  no_newline (square_root_line r) = true.
Proof. unfold square_root_line. one_line. Qed.

Lemma no_newline_is_even_line (n : Z) (r : bool) :
  no_newline (is_even_line n r) = true.
Proof. unfold is_even_line. one_line. Qed.

(** *** The digit limit *)

(** When formatting gives a text, it is the text of the value. *)
Lemma format_with_ok (limit : Z) (v : pyval) (t : string) :
  format_with limit v = Ok t -> t = text_of v.
Proof.
  destruct v as [z|f|r]; cbn [format_with text_of].
  - unfold str_int. destruct (_ && _ && _); [discriminate | now intros [= <-]].
  - now intros [= <-].
  - now intros [= <-].
Qed.

(** Formatting raises nothing but the [ValueError] of the limit, and only
    for an [int] whose text is longer than the threshold and whose digits
    are more than a limit that is set. *)
Lemma format_with_raise (limit : Z) (v : pyval) (e : pyexn) :
  format_with limit v = Raise e ->
  e = int_too_long limit
  /\ 0 < limit
  /\ exists z : Z,
       v = PyInt z
       /\ str_digits_check_threshold < Z.of_nat (String.length (int_text z))
       /\ limit < Z.of_nat (String.length (digits (Z.abs z))).
Proof.
  destruct v as [z|f|r]; cbn [format_with]; try discriminate.
  unfold str_int.
  destruct (str_digits_check_threshold <? _) eqn:Hlen; cbn [andb]; [|discriminate].
  destruct (0 <? limit) eqn:Hpos; cbn [andb]; [|discriminate].
  destruct (limit <? _) eqn:Hdig; [|discriminate].
  intros [= <-]. apply Z.ltb_lt in Hlen, Hpos, Hdig.
  split; [reflexivity|]. split; [assumption|]. exists z.
  split; [reflexivity|]. split; [assumption|].
  unfold int_text, NilZero.string_of_int, digits in *.
  destruct z as [|q|q]; cbn [Z.to_int Z.abs Z.to_N Z.ltb Z.compare] in *.
  - exact Hdig.
  - exact Hdig.
  - cbn [String.length N.to_uint] in *. rewrite Nat2Z.inj_succ in Hdig. lia.
Qed.

(** A short text is never refused, whatever the limit. *)
Lemma format_with_short (limit : Z) (v : pyval) :
  Z.of_nat (String.length (text_of v)) <= str_digits_check_threshold ->
  format_with limit v = Ok (text_of v).
Proof.
  intros H. destruct v as [z|f|r]; try reflexivity.
  cbn [format_with text_of] in *. unfold str_int.
  apply Z.ltb_ge in H. now rewrite H.
Qed.

Lemma format_with_float (limit : Z) (r : number) :
  (forall z, r <> NInt z) ->
  format_with limit (of_number r) = Ok (text_of (of_number r)).
Proof. destruct r as [z|f]; [intros H; now destruct (H z) | reflexivity]. Qed.

(** The f-strings of the script. *)
Lemma fstring_one (a : string) (v : pyval) (s : interp) :
  fstring [Lit a; Field v] s
  = (map_result (fun t => a ++ t) (format_with (int_max_str_digits s) v), s).
Proof.
  cbn [fstring]. unfold bind, format_value, ret.
  destruct (format_with _ v) as [t|e]; cbn [map_result]; [|reflexivity].
  now rewrite append_empty.
Qed.

Lemma fstring_is_even (r : bool) (s : interp) :
  fstring [Lit "Is "; Field (PyInt 42); Lit " even? "; Field (PyBool r)] s
  = (Ok (is_even_line 42 r), s).
Proof.
  cbn [fstring]. unfold bind, format_value, ret.
  rewrite (format_with_short _ (PyInt 42)) by (vm_compute; discriminate).
  cbn [format_with]. unfold is_even_line. now rewrite append_empty.
Qed.

End FormatFacts.

(** ** Runs of [main] and of the script *)

Module RunFacts.
Import PyValue Text TextFacts FormatFacts Py Example.

Lemma advanced_output (s s' : interp) (w : string) (evs : list event) :
  advanced s s' w evs -> output s s' = w /\ events s s' = evs.
Proof.
  intros (_ & _ & _ & _ & _ & _ & Hout & Hev). unfold output, events.
  rewrite Hout, Hev. split; [apply drop_app | apply skipn_app_exact].
Qed.

(** Unfold [main] into its chain of calls, f-strings and prints. *)
Ltac start :=
  unfold main, bind, call_add, call_multiply, call_square_root, call_is_even, print.

(** Run it as far as the next call or f-string whose outcome is not known
    yet. *)
Ltac go :=
  cbn [map_result fst snd argv environ cwd open_files sys_path
       int_max_str_digits stdout history record set_stdout];
  rewrite ?fstring_one, ?fstring_is_even;
  cbn [map_result fst snd argv environ cwd open_files sys_path
       int_max_str_digits stdout history record set_stdout].

(** Feed the outcome of the next call. *)
Ltac call H := rewrite H; go.

(** Feed the outcome of a call that returns a value that can be printed. *)
Ltac step H := let Hc := fresh in let Hf := fresh in
  destruct H as [Hc Hf]; rewrite Hc; go; rewrite Hf; go.

(** Bring the state a run of [main] reaches into the shape [advanced]
    asks for. *)
Ltac reached :=
  unfold advanced, the_four_calls, add_line, multiply_line, square_root_line;
  cbn [fst snd argv environ cwd open_files sys_path int_max_str_digits stdout
       history record set_stdout unlines interleave];
  repeat split;
  repeat rewrite append_assoc;
  repeat rewrite <- app_assoc;
  rewrite ?append_empty;
  reflexivity.

(** All four calls return values that can be printed: four lines, eight
    events. *)
Lemma main_returns (b : bindings) (s : interp) (r1 r2 r3 : number) (r4 : bool) :
  yields (int_max_str_digits s) (add b (NInt 5) (NInt 3)) r1 ->
  yields (int_max_str_digits s) (multiply b (NFloat lit_4_5) (NFloat lit_2_0)) r2 ->
  yields (int_max_str_digits s) (square_root b (NFloat lit_16_0)) r3 ->
  is_even b 42 = Ok r4 ->
  let ls := [add_line r1; multiply_line r2; square_root_line r3; is_even_line 42 r4] in
  fst (main b s) = Ok tt
  /\ advanced s (snd (main b s)) (unlines ls) (interleave the_four_calls ls).
Proof.
  intros H1 H2 H3 H4 ls. subst ls. start.
  step H1. step H2. step H3. call H4. split; [reflexivity | reached].
Qed.

(** A step fails: the lines before it, and the calls up to it. *)
Lemma main_stops (b : bindings) (s : interp) (k : nat) (c : cause) (e : pyexn)
    (ls : list string) :
  stops_at b (int_max_str_digits s) k c e ls ->
  fst (main b s) = Raise e
  /\ advanced s (snd (main b s)) (unlines ls) (interleave the_four_calls ls).
Proof.
  intros H.
  destruct H as [e H1 | r1 e H1 F1 | r1 e H1 H2 | r1 r2 e H1 H2 F2
                | r1 r2 e H1 H2 H3 | r1 r2 r3 e H1 H2 H3 F3
                | r1 r2 r3 e H1 H2 H3 H4]; start.
  - call H1. split; [reflexivity | reached].
  - call H1. call F1. split; [reflexivity | reached].
  - step H1. call H2. split; [reflexivity | reached].
  - step H1. call H2. call F2. split; [reflexivity | reached].
  - step H1. step H2. call H3. split; [reflexivity | reached].
  - step H1. step H2. call H3. call F3. split; [reflexivity | reached].
  - step H1. step H2. step H3. call H4. split; [reflexivity | reached].
Qed.

(** The outcome of a call is a value that can be printed, or the step
    fails one way or the other. *)
Lemma step_cases (limit : Z) (c : result number) :
  (exists r, yields limit c r)
  \/ (exists e, c = Raise e)
  \/ (exists r e, c = Ok r /\ format_with limit (of_number r) = Raise e).
Proof.
  destruct c as [r|e]; [|right; left; now exists e].
  destruct (format_with limit (of_number r)) as [t|e] eqn:F.
  - left. exists r. split; [reflexivity|].
    now rewrite (format_with_ok _ _ _ F) in F.
  - right. right. now exists r, e.
Qed.

(** Every run of [main] is of one of these kinds. *)
Lemma main_cases (b : bindings) (limit : Z) :
  (exists r1 r2 r3 r4,
      yields limit (add b (NInt 5) (NInt 3)) r1
      /\ yields limit (multiply b (NFloat lit_4_5) (NFloat lit_2_0)) r2
      /\ yields limit (square_root b (NFloat lit_16_0)) r3
      /\ is_even b 42 = Ok r4)
  \/ (exists k c e ls, stops_at b limit k c e ls).
Proof.
  destruct (step_cases limit (add b (NInt 5) (NInt 3)))
    as [[r1 H1] | [[e H1] | (r1 & e & H1 & F1)]];
    [| right; exists 1%nat, CallRaised, e, []; now constructor
     | right; exists 1%nat, FormatRaised, e, []; econstructor; eassumption].
  destruct (step_cases limit (multiply b (NFloat lit_4_5) (NFloat lit_2_0)))
    as [[r2 H2] | [[e H2] | (r2 & e & H2 & F2)]];
    [| right; exists 2%nat, CallRaised, e, [add_line r1]; now constructor
     | right; exists 2%nat, FormatRaised, e, [add_line r1];
       econstructor; eassumption].
  destruct (step_cases limit (square_root b (NFloat lit_16_0)))
    as [[r3 H3] | [[e H3] | (r3 & e & H3 & F3)]];
    [| right; exists 3%nat, CallRaised, e, [add_line r1; multiply_line r2];
       now constructor
     | right; exists 3%nat, FormatRaised, e, [add_line r1; multiply_line r2];
       econstructor; eassumption].
  destruct (is_even b 42) as [r4|e] eqn:H4;
    [| right;
       exists 4%nat, CallRaised, e, [add_line r1; multiply_line r2; square_root_line r3];
       now constructor].
  left. now exists r1, r2, r3, r4.
Qed.

(** The four lines of a complete run are four lines of text. *)
Lemma one_line_results (r1 r2 r3 : number) (r4 : bool) :
  Forall (fun l => no_newline l = true)
    [add_line r1; multiply_line r2; square_root_line r3; is_even_line 42 r4].
Proof.
  repeat constructor;
    auto using no_newline_add_line, no_newline_multiply_line,
      no_newline_square_root_line, no_newline_is_even_line.
Qed.

Lemma lines_of_results (r1 r2 r3 : number) (r4 : bool) :
  let ls := [add_line r1; multiply_line r2; square_root_line r3; is_even_line 42 r4] in
  lines (unlines ls) = ls.
Proof. intros ls. apply lines_unlines, one_line_results. Qed.

Lemma stops_at_length (b : bindings) (limit : Z) (k : nat) (c : cause) (e : pyexn)
    (ls : list string) :
  stops_at b limit k c e ls -> k = S (List.length ls) /\ (List.length ls < 4)%nat.
Proof. destruct 1; simpl; lia. Qed.

Lemma stops_at_one_line (b : bindings) (limit : Z) (k : nat) (c : cause) (e : pyexn)
    (ls : list string) :
  stops_at b limit k c e ls -> Forall (fun l => no_newline l = true) ls.
Proof.
  destruct 1; repeat constructor;
    auto using no_newline_add_line, no_newline_multiply_line,
      no_newline_square_root_line.
Qed.

(** The lines printed before a failing step are the lines for the results
    of the calls before it. *)
Lemma stops_at_lines (b : bindings) (limit : Z) (k : nat) (c : cause) (e : pyexn)
    (ls : list string) :
  stops_at b limit k c e ls ->
  map Some ls = map (line_for b) (seq 1 (List.length ls)).
Proof.
  destruct 1; cbn [List.length seq map line_for];
    repeat match goal with
           | H : yields _ _ _ |- _ => destruct H as [-> _]
           end;
    reflexivity.
Qed.

Lemma returns_lines (b : bindings) (r1 r2 r3 : number) (r4 : bool) :
  add b (NInt 5) (NInt 3) = Ok r1 ->
  multiply b (NFloat lit_4_5) (NFloat lit_2_0) = Ok r2 ->
  square_root b (NFloat lit_16_0) = Ok r3 ->
  is_even b 42 = Ok r4 ->
  map Some [add_line r1; multiply_line r2; square_root_line r3; is_even_line 42 r4]
  = map (line_for b) (seq 1 4).
Proof.
  intros H1 H2 H3 H4. cbn [seq map line_for]. now rewrite H1, H2, H3, H4.
Qed.

(** The calls in the record of a run that printed [ls]. *)
Lemma calls_of_interleave (ls : list string) :
  calls_of (interleave the_four_calls ls)
  = firstn (S (List.length ls)) the_four_calls.
Proof. destruct ls as [|l1 [|l2 [|l3 [|l4 ls]]]]; reflexivity. Qed.

Lemma calls_made_advanced (s s' : interp) (w : string) (ls : list string) :
  advanced s s' w (interleave the_four_calls ls) ->
  calls_made s s' = Nat.min (S (List.length ls)) 4.
Proof.
  intros Ha. apply advanced_output in Ha as [_ He].
  unfold calls_made. rewrite He, calls_of_interleave, length_firstn.
  reflexivity.
Qed.

(** *** What a run shows about the calls *)

(** Use what is known of the calls in a fact on [call_outcome]. *)
Ltac known Hk :=
  cbn [call_outcome] in Hk;
  repeat match goal with
         | Hy : yields _ _ _ |- _ => rewrite (proj1 Hy) in Hk
         | E : _ = Ok _ |- _ => rewrite E in Hk
         | E : _ = Raise _ |- _ => rewrite E in Hk
         end;
  cbn [map_result] in Hk.

(** A run of [main] prints some lines [ls], at most four, each free of
    line feeds and each the line for the result of its call; it makes one
    call more than it prints lines, up to four, and returns exactly when
    it printed four. *)
Lemma main_summary (b : bindings) (s : interp) :
  exists ls : list string,
    (List.length ls <= 4)%nat
    /\ Forall (fun l => no_newline l = true) ls
    /\ map Some ls = map (line_for b) (seq 1 (List.length ls))
    /\ advanced s (snd (main b s)) (unlines ls) (interleave the_four_calls ls)
    /\ calls_made s (snd (main b s)) = Nat.min (S (List.length ls)) 4
    /\ (fst (main b s) = Ok tt <-> List.length ls = 4%nat).
Proof.
  destruct (main_cases b (int_max_str_digits s))
    as [(r1 & r2 & r3 & r4 & H1 & H2 & H3 & H4) | (k & c & e & ls & Hk)].
  - destruct (main_returns b s r1 r2 r3 r4 H1 H2 H3 H4) as [Hr Ha].
    eexists. split; [|split; [apply one_line_results|]].
    + simpl. lia.
    + split; [exact (returns_lines b r1 r2 r3 r4 (proj1 H1) (proj1 H2) (proj1 H3) H4)|].
      split; [exact Ha|]. split; [exact (calls_made_advanced _ _ _ _ Ha)|].
      split; [reflexivity | intros _; exact Hr].
  - destruct (main_stops b s k c e ls Hk) as [Hr Ha].
    destruct (stops_at_length _ _ _ _ _ _ Hk) as [_ Hlt].
    exists ls. split; [lia|]. split; [exact (stops_at_one_line _ _ _ _ _ _ Hk)|].
    split; [exact (stops_at_lines _ _ _ _ _ _ Hk)|]. split; [exact Ha|].
    split; [exact (calls_made_advanced _ _ _ _ Ha)|].
    rewrite Hr. split; [discriminate | lia].
Qed.

(** A run in which all four calls are made and the last one returns is a
    run in which every call returned a value that could be printed. *)
Lemma all_called_returns (b : bindings) (s : interp) (r4 : bool) :
  calls_made s (snd (main b s)) = 4%nat ->
  is_even b 42 = Ok r4 ->
  exists r1 r2 r3,
    yields (int_max_str_digits s) (add b (NInt 5) (NInt 3)) r1
    /\ yields (int_max_str_digits s) (multiply b (NFloat lit_4_5) (NFloat lit_2_0)) r2
    /\ yields (int_max_str_digits s) (square_root b (NFloat lit_16_0)) r3.
Proof.
  intros Hn H4.
  destruct (main_cases b (int_max_str_digits s))
    as [(r1 & r2 & r3 & q4 & H1 & H2 & H3 & _) | (k & c & e & ls & Hk)].
  - now exists r1, r2, r3.
  - destruct (main_stops b s k c e ls Hk) as [_ Ha].
    rewrite (calls_made_advanced _ _ _ _ Ha) in Hn.
    destruct Hk; cbn [List.length Nat.min] in Hn; try discriminate Hn.
    congruence.
Qed.

(** A call that is made in a run and raises is where the run stops. *)
Lemma call_raised_stops (b : bindings) (s : interp) (k : nat) (e : pyexn) :
  (1 <= k <= calls_made s (snd (main b s)))%nat ->
  call_outcome b k = Some (Raise e) ->
  exists ls, stops_at b (int_max_str_digits s) k CallRaised e ls.
Proof.
  intros Hn Hk.
  destruct (main_cases b (int_max_str_digits s))
    as [(r1 & r2 & r3 & r4 & H1 & H2 & H3 & H4) | (k' & c & e' & ls & Hs)].
  - destruct k as [|[|[|[|[|k]]]]]; known Hk; discriminate Hk.
  - destruct (main_stops b s k' c e' ls Hs) as [_ Ha].
    rewrite (calls_made_advanced _ _ _ _ Ha) in Hn.
    destruct Hs; cbn [List.length Nat.min] in Hn;
      destruct k as [|[|[|[|[|k]]]]]; try lia; known Hk; try discriminate Hk;
      injection Hk as <-; eexists; econstructor; eassumption.
Qed.

(** A call that is made in a run and returns a value that cannot be put
    into the f-string is where the run stops. *)
Lemma format_raised_stops (b : bindings) (s : interp) (k : nat) (v : pyval)
    (e : pyexn) :
  (1 <= k <= calls_made s (snd (main b s)))%nat ->
  call_outcome b k = Some (Ok v) ->
  format_with (int_max_str_digits s) v = Raise e ->
  exists ls, stops_at b (int_max_str_digits s) k FormatRaised e ls.
Proof.
  intros Hn Hk Hf.
  destruct (main_cases b (int_max_str_digits s))
    as [(r1 & r2 & r3 & r4 & H1 & H2 & H3 & H4) | (k' & c & e' & ls & Hs)].
  - destruct k as [|[|[|[|[|k]]]]]; known Hk; try discriminate Hk;
      injection Hk as <-;
      repeat match goal with
             | Hy : yields _ _ _ |- _ => destruct Hy as [_ Hy]
             end;
      cbn [format_with] in Hf; congruence.
  - destruct (main_stops b s k' c e' ls Hs) as [_ Ha].
    rewrite (calls_made_advanced _ _ _ _ Ha) in Hn.
    destruct Hs; cbn [List.length Nat.min] in Hn;
      destruct k as [|[|[|[|[|k]]]]]; try lia; known Hk; try discriminate Hk;
      injection Hk as <-;
      try (eexists; econstructor; eassumption);
      repeat match goal with
             | Hy : yields _ _ _ |- _ => destruct Hy as [_ Hy]
             end;
      congruence.
Qed.

Section Script.
Variable os_path_abspath : string -> string -> string.
Variable os_path_dirname : string -> string.
Variable import_bindings_math : interp -> result bindings.

Lemma at_import_state (file : string) (s : interp) :
  at_import os_path_abspath os_path_dirname file s
  = set_sys_path
      (sys_path s
         ++ [os_path_dirname (os_path_dirname (os_path_abspath (cwd s) file))])%list
      s.
Proof. reflexivity. Qed.

(** The script step by step: lines 1 to 3 always complete; then the
    import; then [main]. *)
Lemma script_steps (file name : string) (s : interp) :
  script os_path_abspath os_path_dirname import_bindings_math file name s
  = let s1 := at_import os_path_abspath os_path_dirname file s in
    match import_bindings_math s1 with
    | Raise e => (Raise e, s1)
    | Ok b => if String.eqb name "__main__" then main b s1 else (Ok tt, s1)
    end.
Proof.
  unfold script, at_import, from_bindings_math_import.
  unfold bind at 1 2.
  change (preamble os_path_abspath os_path_dirname file s)
    with (Ok tt, at_import os_path_abspath os_path_dirname file s).
  cbn [snd].
  destruct (import_bindings_math _) as [b|e]; [|reflexivity].
  now destruct (String.eqb name "__main__").
Qed.

Lemma run_steps (file : string) (s : interp) :
  run os_path_abspath os_path_dirname import_bindings_math file s
  = let s1 := at_import os_path_abspath os_path_dirname file s in
    match import_bindings_math s1 with
    | Raise e => (ended_by e, s1)
    | Ok b =>
        match main b s1 with
        | (Ok _, s') => (ExitSuccess, s')
        | (Raise e, s') => (ended_by e, s')
        end
    end.
Proof.
  unfold run. rewrite script_steps. cbv zeta.
  destruct (import_bindings_math _) as [b|e]; reflexivity.
Qed.

Lemma run_import_raises (file : string) (s : interp) (e : pyexn) :
  import_bindings_math (at_import os_path_abspath os_path_dirname file s) = Raise e ->
  run os_path_abspath os_path_dirname import_bindings_math file s
  = (ended_by e, at_import os_path_abspath os_path_dirname file s).
Proof. intros H. rewrite run_steps. cbv zeta. now rewrite H. Qed.

(** After the import the run is the run of [main]. *)
Lemma run_state (file : string) (s : interp) (b : bindings) :
  import_bindings_math (at_import os_path_abspath os_path_dirname file s) = Ok b ->
  snd (run os_path_abspath os_path_dirname import_bindings_math file s)
  = snd (main b (at_import os_path_abspath os_path_dirname file s)).
Proof.
  intros H. rewrite run_steps. cbv zeta. rewrite H.
  now destruct (main b _) as [[u|e] s'].
Qed.

Lemma run_main_returns (file : string) (s : interp) (b : bindings) :
  import_bindings_math (at_import os_path_abspath os_path_dirname file s) = Ok b ->
  fst (main b (at_import os_path_abspath os_path_dirname file s)) = Ok tt ->
  fst (run os_path_abspath os_path_dirname import_bindings_math file s) = ExitSuccess.
Proof.
  intros H Hm. rewrite run_steps. cbv zeta. rewrite H.
  destruct (main b _) as [[u|e] s']; [reflexivity | discriminate Hm].
Qed.

Lemma run_main_raises (file : string) (s : interp) (b : bindings) (e : pyexn) :
  import_bindings_math (at_import os_path_abspath os_path_dirname file s) = Ok b ->
  fst (main b (at_import os_path_abspath os_path_dirname file s)) = Raise e ->
  fst (run os_path_abspath os_path_dirname import_bindings_math file s) = ended_by e.
Proof.
  intros H Hm. rewrite run_steps. cbv zeta. rewrite H.
  destruct (main b _) as [[u|e'] s']; simpl in Hm; [discriminate Hm|].
  now injection Hm as ->.
Qed.

(** The program runs to its end exactly when [main] returns: a run that an
    exception ends does not end as [ExitSuccess], whatever the exception. *)
Lemma run_exit_success (file : string) (s : interp) (b : bindings) :
  import_bindings_math (at_import os_path_abspath os_path_dirname file s) = Ok b ->
  fst (run os_path_abspath os_path_dirname import_bindings_math file s) = ExitSuccess
  <-> fst (main b (at_import os_path_abspath os_path_dirname file s)) = Ok tt.
Proof.
  intros Hi. rewrite run_steps. cbv zeta. rewrite Hi.
  destruct (main b _) as [[[]|e] s']; cbn [fst]; split; try reflexivity;
    try discriminate.
  unfold ended_by. destruct (exn_exit e); discriminate.
Qed.

(** What [main] adds after the import, seen from the start of the run. *)
Lemma advanced_from_start (file : string) (s s' : interp) (w : string)
    (evs : list event) :
  advanced (at_import os_path_abspath os_path_dirname file s) s' w evs ->
  argv s' = argv s /\ environ s' = environ s /\ cwd s' = cwd s
  /\ open_files s' = open_files s
  /\ sys_path s'
     = (sys_path s
          ++ [os_path_dirname (os_path_dirname (os_path_abspath (cwd s) file))])%list
  /\ stdout s' = stdout s ++ w
  /\ output s s' = w
  /\ events s s' = evs.
Proof.
  intros (Ha & He & Hc & Hf & Hp & _ & Ho & Hh).
  rewrite at_import_state in Ha, He, Hc, Hf, Hp, Ho, Hh.
  cbn [argv environ cwd open_files sys_path stdout history set_sys_path]
    in Ha, He, Hc, Hf, Hp, Ho, Hh.
  repeat split; try assumption.
  - unfold output. rewrite Ho. apply drop_app.
  - unfold events. rewrite Hh. apply skipn_app_exact.
Qed.

(** Observations from the start of the run and from the import agree. *)
Lemma observed_from_start (file : string) (s s' : interp) :
  output s s' = output (at_import os_path_abspath os_path_dirname file s) s'
  /\ events s s' = events (at_import os_path_abspath os_path_dirname file s) s'
  /\ calls_made s s' = calls_made (at_import os_path_abspath os_path_dirname file s) s'
  /\ int_max_str_digits (at_import os_path_abspath os_path_dirname file s)
     = int_max_str_digits s.
Proof. repeat split. Qed.

(** A run of the program prints some lines [ls], at most four, and changes
    nothing after the import but standard output. *)
Lemma run_advanced (file : string) (s : interp) :
  exists (ls : list string) (evs : list event),
    (List.length ls <= 4)%nat
    /\ Forall (fun l => no_newline l = true) ls
    /\ advanced (at_import os_path_abspath os_path_dirname file s)
         (snd (run os_path_abspath os_path_dirname import_bindings_math file s))
         (unlines ls) evs.
Proof.
  destruct (import_bindings_math (at_import os_path_abspath os_path_dirname file s))
    as [b|e] eqn:Hi.
  - rewrite (run_state file s b Hi).
    destruct (main_summary b (at_import os_path_abspath os_path_dirname file s))
      as (ls & Hlen & Hone & _ & Ha & _).
    now exists ls, (interleave the_four_calls ls).
  - rewrite (run_import_raises file s e Hi).
    exists [], []. cbn [snd unlines List.length]. split; [lia|]. split; [constructor|].
    unfold advanced. rewrite append_empty, app_nil_r. repeat split.
Qed.

End Script.

End RunFacts.

(** ** The binding module on the script's literals *)

Module MathFacts.
Import PyValue Text TextFacts FloatRepr FormatFacts Py Example RunFacts Samples.

(** The literals denote the floats they spell. *)
Example lit_4_5_repr : float_repr lit_4_5 = "4.5".
Proof. vm_compute. reflexivity. Qed.

Example lit_2_0_repr : float_repr lit_2_0 = "2.0".
Proof. vm_compute. reflexivity. Qed.

Example lit_16_0_repr : float_repr lit_16_0 = "16.0".
Proof. vm_compute. reflexivity. Qed.

Example float_repr_shortest :
  float_repr (SFadd float_prec float_emax (float_literal 1 (-1)) (float_literal 2 (-1)))
  = "0.30000000000000004"
  /\ float_repr (float_literal 1 16) = "1e+16"
  /\ float_repr (float_literal 1 (-5)) = "1e-05"
  /\ float_repr (S754_finite false 1 (-1074)) = "5e-324".
Proof. vm_compute. repeat split. Qed.

Lemma add_5_3 : MathBindings.add (NInt 5) (NInt 3) = Ok (NInt 8).
Proof. reflexivity. Qed.

Lemma multiply_4_5_2_0 :
  MathBindings.multiply (NFloat lit_4_5) (NFloat lit_2_0)
  = Ok (NFloat (float_literal 90 (-1))).
Proof. vm_compute. reflexivity. Qed.

Lemma square_root_16_0 :
  MathBindings.square_root (NFloat lit_16_0) = Ok (NFloat (float_literal 40 (-1))).
Proof. vm_compute. reflexivity. Qed.

Lemma is_even_42 : MathBindings.is_even 42 = Ok true.
Proof. reflexivity. Qed.

(** The three numbers can be printed under every limit. *)
Lemma add_yields (limit : Z) :
  yields limit (add MathBindings.math (NInt 5) (NInt 3)) (NInt 8).
Proof.
  split; [exact add_5_3|].
  apply (format_with_short limit (PyInt 8)). vm_compute. discriminate.
Qed.

Lemma multiply_yields (limit : Z) :
  yields limit (multiply MathBindings.math (NFloat lit_4_5) (NFloat lit_2_0))
    (NFloat (float_literal 90 (-1))).
Proof. split; [exact multiply_4_5_2_0 | reflexivity]. Qed.

Lemma square_root_yields (limit : Z) :
  yields limit (square_root MathBindings.math (NFloat lit_16_0))
    (NFloat (float_literal 40 (-1))).
Proof. split; [exact square_root_16_0 | reflexivity]. Qed.

(** [main] on the arithmetic bindings, from any state. *)
Lemma main_math (s : interp) :
  fst (main MathBindings.math s) = Ok tt
  /\ output s (snd (main MathBindings.math s)) = unlines expected_lines
  /\ events s (snd (main MathBindings.math s))
     = interleave the_four_calls expected_lines.
Proof.
  destruct (main_returns MathBindings.math s _ _ _ _
              (add_yields _) (multiply_yields _) (square_root_yields _)
              is_even_42) as [Hr Ha].
  apply advanced_output in Ha as [Ho He].
  split; [exact Hr|]. rewrite Ho, He.
  split; vm_compute; reflexivity.
Qed.

End MathFacts.

(** ** Results too long to print *)

Module LongFacts.
Import PyValue Text TextFacts FormatFacts Py Example RunFacts Samples.

Lemma length_nines (n : nat) :
  String.length (NilEmpty.string_of_uint (nines n)) = n.
Proof. induction n as [|n IH]; cbn [nines NilEmpty.string_of_uint String.length]; congruence. Qed.

(** The text of [long_int (S n)] is its [S n] nines. *)
Lemma int_text_long (n : nat) :
  int_text (long_int (S n)) = NilEmpty.string_of_uint (nines (S n)).
Proof.
  unfold int_text, long_int.
  change (Z.of_uint (nines (S n))) with (Z.of_int (Pos (nines (S n)))).
  rewrite DecimalZ.to_of. reflexivity.
Qed.

Lemma length_int_text_long (n : nat) :
  String.length (int_text (long_int (S n))) = S n.
Proof. now rewrite int_text_long, length_nines. Qed.

Lemma long_int_nonneg (n : nat) : 0 <= long_int n.
Proof. unfold long_int, Z.of_uint. apply N2Z.is_nonneg. Qed.

Lemma digits_abs (z : Z) : 0 <= z -> digits (Z.abs z) = int_text z.
Proof. destruct z as [|q|q]; [reflexivity | reflexivity | lia]. Qed.

(** An [int] with more digits than a limit that is set, and longer than
    the threshold, is refused. *)
Lemma str_int_too_long (limit z : Z) :
  0 < limit ->
  limit < Z.of_nat (String.length (digits (Z.abs z))) ->
  str_digits_check_threshold < Z.of_nat (String.length (int_text z)) ->
  str_int limit z = Raise (int_too_long limit).
Proof.
  intros Hpos Hdig Hlen. unfold str_int.
  apply Z.ltb_lt in Hpos. apply Z.ltb_lt in Hlen. rewrite Hpos, Hlen. cbn [andb].
  replace (limit <? _) with true; [reflexivity|].
  symmetry. apply Z.ltb_lt.
  unfold int_text, NilZero.string_of_int, digits in *.
  destruct z as [|q|q]; cbn [Z.to_int Z.abs Z.to_N Z.ltb Z.compare N.to_uint] in *.
  - exact Hdig.
  - exact Hdig.
  - cbn [String.length]. rewrite Nat2Z.inj_succ. lia.
Qed.




Section Runs.
Variable os_path_abspath : string -> string -> string.
Variable os_path_dirname : string -> string.
Variable z : Z.



End Runs.

End LongFacts.

(** * The specification's claims *)

Import PyValue Text TextFacts Py Example RunFacts.

Section ProgramRuns.

Variable os_path_abspath : string -> string -> string.
Variable os_path_dirname : string -> string.
Variable import_bindings_math : interp -> result bindings.

(** C1: in a run in which all four calls into the binding module are made
    and return, the program exits successfully and standard output has
    grown by exactly four lines, the four formatted results, and by
    nothing else. *)
Theorem run_prints_four_lines (file : string) (s : interp) (b : bindings)
    (r1 r2 r3 : number) (r4 : bool) :
  import_bindings_math (at_import os_path_abspath os_path_dirname file s) = Ok b ->
  let s' := snd (run os_path_abspath os_path_dirname import_bindings_math file s) in
  calls_made s s' = 4%nat ->
  add b (NInt 5) (NInt 3) = Ok r1 ->
  multiply b (NFloat lit_4_5) (NFloat lit_2_0) = Ok r2 ->
  square_root b (NFloat lit_16_0) = Ok r3 ->
  is_even b 42 = Ok r4 ->
  let ls := [add_line r1; multiply_line r2; square_root_line r3; is_even_line 42 r4] in
  fst (main b (at_import os_path_abspath os_path_dirname file s)) = Ok tt
  /\ fst (run os_path_abspath os_path_dirname import_bindings_math file s) = ExitSuccess
  /\ stdout s' = stdout s ++ unlines ls
  /\ lines (output s s') = ls
  /\ List.length (lines (output s s')) = 4%nat.
Proof.
  intros Hi s' Hn H1 H2 H3 H4 ls. subst s'.
  rewrite (run_state _ _ _ file s b Hi) in *.
  destruct (all_called_returns b _ r4 Hn H4) as (q1 & q2 & q3 & Y1 & Y2 & Y3).
  assert (q1 = r1) as -> by (destruct Y1; congruence).
  assert (q2 = r2) as -> by (destruct Y2; congruence).
  assert (q3 = r3) as -> by (destruct Y3; congruence).
  destruct (main_returns b _ r1 r2 r3 r4 Y1 Y2 Y3 H4) as [Hr Ha].
  fold ls in Ha.
  apply advanced_from_start in Ha as (_ & _ & _ & _ & _ & Hout & Hw & _).
  pose proof (lines_of_results r1 r2 r3 r4) as Hl. cbv zeta in Hl. fold ls in Hl.
  rewrite Hw, Hl.
  split; [exact Hr|]. split; [exact (run_main_returns _ _ _ file s b Hi Hr)|].
  repeat split; try assumption; reflexivity.
Qed.

(** C7: nothing in the script catches an exception.  One raised by the
    import leaves the module body, whatever [__name__] is, and ends the
    run before anything is printed; one raised by a call into the binding
    module that the run makes leaves [main], leaves the module body and
    ends the run. *)
Theorem failures_propagate (file : string) (s : interp) (e : pyexn) :
  (import_bindings_math (at_import os_path_abspath os_path_dirname file s) = Raise e ->
   (forall name : string,
       fst (script os_path_abspath os_path_dirname import_bindings_math file name s)
       = Raise e)
   /\ fst (run os_path_abspath os_path_dirname import_bindings_math file s)
      = ended_by e
   /\ output s (snd (run os_path_abspath os_path_dirname import_bindings_math file s))
      = "")
  /\ (forall (b : bindings) (k : nat),
         import_bindings_math (at_import os_path_abspath os_path_dirname file s) = Ok b ->
         (1 <= k <= calls_made s
                       (snd (run os_path_abspath os_path_dirname
                               import_bindings_math file s)))%nat ->
         call_outcome b k = Some (Raise e) ->
         fst (main b (at_import os_path_abspath os_path_dirname file s)) = Raise e
         /\ fst (script os_path_abspath os_path_dirname import_bindings_math
                   file "__main__" s)
            = Raise e
         /\ fst (run os_path_abspath os_path_dirname import_bindings_math file s)
            = ended_by e).
Proof.
  split.
  - intros Hi. rewrite (run_import_raises _ _ _ file s e Hi). cbn [fst snd].
    split.
    { intros name. rewrite script_steps. cbv zeta. now rewrite Hi. }
    split; [reflexivity|].
    unfold output. rewrite at_import_state. cbn [stdout set_sys_path].
    rewrite <- (append_empty (stdout s)) at 2. apply drop_app.
  - intros b k Hi Hn Hk.
    rewrite (run_state _ _ _ file s b Hi) in Hn.
    destruct (call_raised_stops b _ k e Hn Hk) as [ls Hs].
    destruct (main_stops b _ k CallRaised e ls Hs) as [Hr _].
    split; [exact Hr|]. split.
    + rewrite script_steps. cbv zeta. now rewrite Hi.
    + exact (run_main_raises _ _ _ file s b e Hi Hr).
Qed.

(** C8, amended: on every run, however it ends, the argument vector, the
    environment, the working directory and the open files are untouched
    and standard output only grows, and [sys.path] has one more entry at
    its end: the parent of the directory of the script. *)
Theorem run_appends_to_sys_path (file : string) (s : interp) :
  let s' := snd (run os_path_abspath os_path_dirname import_bindings_math file s) in
  argv s' = argv s /\ environ s' = environ s /\ cwd s' = cwd s
  /\ open_files s' = open_files s
  /\ sys_path s'
     = (sys_path s
          ++ [os_path_dirname (os_path_dirname (os_path_abspath (cwd s) file))])%list
  /\ exists w : string, stdout s' = stdout s ++ w.
Proof.
  intros s'. subst s'.
  destruct (run_advanced os_path_abspath os_path_dirname import_bindings_math
              file s) as (ls & evs & _ & _ & Ha).
  apply advanced_from_start in Ha as (A1 & A2 & A3 & A4 & A5 & A6 & _ & _).
  eauto 10.
Qed.

(** C10: when the [k]-th call into the binding module is made and raises,
    the run ends with that exception, having made [k] calls, and standard
    output has grown by exactly [k - 1] lines, the lines for the results
    of the calls before it in their order: nothing is written for the
    failing call or for a later one. *)
Theorem failing_call_keeps_earlier_lines (file : string) (s : interp)
    (b : bindings) (k : nat) (e : pyexn) :
  import_bindings_math (at_import os_path_abspath os_path_dirname file s) = Ok b ->
  let s' := snd (run os_path_abspath os_path_dirname import_bindings_math file s) in
  (1 <= k <= calls_made s s')%nat ->
  call_outcome b k = Some (Raise e) ->
  fst (run os_path_abspath os_path_dirname import_bindings_math file s) = ended_by e
  /\ calls_made s s' = k
  /\ stdout s' = stdout s ++ unlines (lines (output s s'))
  /\ List.length (lines (output s s')) = (k - 1)%nat
  /\ map Some (lines (output s s')) = map (line_for b) (seq 1 (k - 1))
  /\ events s s' = interleave (firstn k the_four_calls) (lines (output s s')).
Proof.
  intros Hi s' Hn Hk. subst s'.
  rewrite (run_state _ _ _ file s b Hi) in *.
  destruct (call_raised_stops b _ k e Hn Hk) as [ls Hs].
  destruct (main_stops b _ k CallRaised e ls Hs) as [Hr Ha].
  pose proof (calls_made_advanced _ _ _ _ Ha) as Hc.
  pose proof (stops_at_lines _ _ _ _ _ _ Hs) as Hl.
  destruct (stops_at_length _ _ _ _ _ _ Hs) as [-> Hlt].
  apply advanced_from_start in Ha as (_ & _ & _ & _ & _ & Hout & Hw & Hev).
  change (calls_made (at_import os_path_abspath os_path_dirname file s))
    with (calls_made s) in Hc.
  rewrite Hw, (lines_unlines ls (stops_at_one_line _ _ _ _ _ _ Hs)), Hev, Hc.
  replace (S (List.length ls) - 1)%nat with (List.length ls) by lia.
  split; [exact (run_main_raises _ _ _ file s b e Hi Hr)|].
  split; [lia|]. repeat split; try assumption.
  destruct Hs; reflexivity.
Qed.


End ProgramRuns.


(** C2: with [add] the sum, the line [main] prints after calling
    [add(5, 3)] is ["5 + 3 = 8"], and it is the first line of the output. *)
Theorem add_output_line (s : interp) :
  MathBindings.add (NInt 5) (NInt 3) = Ok (NInt 8)
  /\ printed_after "add" (events s (snd (main MathBindings.math s)))
     = Some "5 + 3 = 8"
  /\ nth_error (lines (output s (snd (main MathBindings.math s)))) 0
     = Some "5 + 3 = 8".
Proof.
  destruct (MathFacts.main_math s) as (_ & -> & ->).
  repeat split; vm_compute; reflexivity.
Qed.

(** C3: with [multiply] the product, the line [main] prints after calling
    [multiply(4.5, 2.0)] is ["4.5 * 2.0 = 9.0"], the second line of the
    output. *)
Theorem multiply_output_line (s : interp) :
  MathBindings.multiply (NFloat lit_4_5) (NFloat lit_2_0)
  = Ok (NFloat (float_literal 90 (-1)))
  /\ printed_after "multiply" (events s (snd (main MathBindings.math s)))
     = Some "4.5 * 2.0 = 9.0"
  /\ nth_error (lines (output s (snd (main MathBindings.math s)))) 1
     = Some "4.5 * 2.0 = 9.0".
Proof.
  destruct (MathFacts.main_math s) as (_ & -> & ->).
  repeat split; vm_compute; reflexivity.
Qed.

(** C4: with [square_root] the square root, the line [main] prints after
    calling [square_root(16.0)] is ["sqrt(16.0) = 4.0"], the third line of
    the output. *)
Theorem square_root_output_line (s : interp) :
  MathBindings.square_root (NFloat lit_16_0) = Ok (NFloat (float_literal 40 (-1)))
  /\ printed_after "square_root" (events s (snd (main MathBindings.math s)))
     = Some "sqrt(16.0) = 4.0"
  /\ nth_error (lines (output s (snd (main MathBindings.math s)))) 2
     = Some "sqrt(16.0) = 4.0".
Proof.
  destruct (MathFacts.main_math s) as (_ & -> & ->).
  repeat split; vm_compute; reflexivity.
Qed.

(** C5: with [is_even] the parity test, the line [main] prints after
    calling [is_even(42)] is ["Is 42 even? True"], the fourth and last line
    of the output. *)
Theorem is_even_output_line (s : interp) :
  MathBindings.is_even 42 = Ok true
  /\ printed_after "is_even" (events s (snd (main MathBindings.math s)))
     = Some "Is 42 even? True"
  /\ nth_error (lines (output s (snd (main MathBindings.math s)))) 3
     = Some "Is 42 even? True".
Proof.
  destruct (MathFacts.main_math s) as (_ & -> & ->).
  repeat split; vm_compute; reflexivity.
Qed.

(** ** The claims on sample runs *)

(** C1 on a sample run: the arithmetic bindings, a POSIX path module. *)
Lemma run_prints_four_lines_witness :
  Samples.import_math
    (at_import PosixPath.abspath PosixPath.dirname Samples.file Samples.start)
  = Ok MathBindings.math
  /\ calls_made Samples.start
       (snd (Samples.run_posix Samples.import_math Samples.start))
     = 4%nat
  /\ fst (Samples.run_posix Samples.import_math Samples.start) = ExitSuccess
  /\ stdout (snd (Samples.run_posix Samples.import_math Samples.start))
     = unlines Samples.expected_lines
  /\ lines (output Samples.start
              (snd (Samples.run_posix Samples.import_math Samples.start)))
     = Samples.expected_lines.
Proof.
  split; [reflexivity|].
  assert (Hn : calls_made Samples.start
                 (snd (Samples.run_posix Samples.import_math Samples.start))
               = 4%nat) by (vm_compute; reflexivity).
  split; [exact Hn|].
  destruct (run_prints_four_lines PosixPath.abspath PosixPath.dirname
              Samples.import_math Samples.file Samples.start MathBindings.math
              (NInt 8) (NFloat (float_literal 90 (-1)))
              (NFloat (float_literal 40 (-1))) true
              eq_refl Hn MathFacts.add_5_3 MathFacts.multiply_4_5_2_0
              MathFacts.square_root_16_0 MathFacts.is_even_42)
    as (_ & Hexit & Hout & Hlines & _).
  unfold Samples.run_posix.
  split; [exact Hexit|]. split.
  - rewrite Hout. vm_compute. reflexivity.
  - rewrite Hlines. vm_compute. reflexivity.
Defined.



(** C7 on two sample runs: the module is missing; [multiply] raises. *)
Lemma failures_propagate_witness :
  (Samples.import_missing
     (at_import PosixPath.abspath PosixPath.dirname Samples.file Samples.start)
   = Raise Samples.module_not_found
   /\ fst (Samples.run_posix Samples.import_missing Samples.start)
      = UnhandledException Samples.module_not_found)
  /\ (call_outcome (Samples.failing 2) 2 = Some (Raise Samples.os_error)
      /\ calls_made Samples.start
           (snd (Samples.run_posix (Samples.import_failing 2) Samples.start))
         = 2%nat
      /\ fst (Samples.run_posix (Samples.import_failing 2) Samples.start)
         = UnhandledException Samples.os_error).
Proof.
  split.
  - split; [reflexivity|].
    apply (proj1 (failures_propagate PosixPath.abspath PosixPath.dirname
                    Samples.import_missing Samples.file Samples.start
                    Samples.module_not_found) eq_refl).
  - assert (Hn : calls_made Samples.start
                   (snd (Samples.run_posix (Samples.import_failing 2) Samples.start))
                 = 2%nat) by (vm_compute; reflexivity).
    split; [reflexivity|]. split; [exact Hn|].
    apply (proj2 (failures_propagate PosixPath.abspath PosixPath.dirname
                    (Samples.import_failing 2) Samples.file Samples.start
                    Samples.os_error)
             (Samples.failing 2) 2%nat eq_refl).
    + unfold Samples.run_posix in Hn. rewrite Hn. lia.
    + reflexivity.
Defined.

(** C8 as stated fails on a sample run: [sys.path] is longer afterwards. *)
Lemma script_mutates_sys_path :
  sys_path Samples.start = ["/home/dev/cp2p/examples"]
  /\ sys_path (snd (Samples.run_posix Samples.import_math Samples.start))
     = ["/home/dev/cp2p/examples"; "/home/dev/cp2p"]
  /\ ~ same_outside_stdout Samples.start
         (snd (Samples.run_posix Samples.import_math Samples.start)).
Proof.
  split; [reflexivity|]. split; [vm_compute; reflexivity|].
  intros (_ & _ & _ & _ & H & _). vm_compute in H. discriminate H.
Qed.



(** C10 on a sample run: [square_root], the third call, raises. *)
Lemma failing_call_keeps_earlier_lines_witness :
  call_outcome (Samples.failing 3) 3 = Some (Raise Samples.os_error)
  /\ calls_made Samples.start
       (snd (Samples.run_posix (Samples.import_failing 3) Samples.start))
     = 3%nat
  /\ fst (Samples.run_posix (Samples.import_failing 3) Samples.start)
     = UnhandledException Samples.os_error
  /\ map Some
       (lines (output Samples.start
                 (snd (Samples.run_posix (Samples.import_failing 3) Samples.start))))
     = [Some "5 + 3 = 8"; Some "4.5 * 2.0 = 9.0"].
Proof.
  assert (Hn : calls_made Samples.start
                 (snd (Samples.run_posix (Samples.import_failing 3) Samples.start))
               = 3%nat) by (vm_compute; reflexivity).
  split; [reflexivity|]. split; [exact Hn|].
  unfold Samples.run_posix in *.
  destruct (failing_call_keeps_earlier_lines PosixPath.abspath PosixPath.dirname
              (Samples.import_failing 3) Samples.file Samples.start
              (Samples.failing 3) 3%nat Samples.os_error eq_refl)
    as (Ht & _ & _ & _ & Hl & _).
  - rewrite Hn. lia.
  - reflexivity.
  - split; [exact Ht|]. rewrite Hl. vm_compute. reflexivity.
Defined.

(** * Further properties of the script *)

(** ** The POSIX [dirname] on a path with one more component *)

Module PathFacts.
Import Text TextFacts PosixPath.

Lemma has_sep_app (a b : string) : has_sep (a ++ b) = has_sep a || has_sep b.
Proof.
  induction a as [|c a IH]; simpl; [reflexivity|].
  now rewrite IH, orb_assoc.
Qed.

Lemma all_sep_app (a b : string) : all_sep (a ++ b) = all_sep a && all_sep b.
Proof.
  induction a as [|c a IH]; simpl; [reflexivity|].
  now rewrite IH, andb_assoc.
Qed.

Lemma upto_last_sep_none (n : string) : has_sep n = false -> upto_last_sep n = "".
Proof. destruct n as [|c n]; [reflexivity|]. cbn [upto_last_sep]. now intros ->. Qed.

(** Up to the last separator of [p/n] is [p/] when [n] has none. *)
Lemma upto_last_sep_child (p n : string) :
  has_sep n = false -> upto_last_sep (p ++ "/" ++ n) = (p ++ "/")%string.
Proof.
  intros Hn. induction p as [|c p IH].
  - change (upto_last_sep (String sep n) = String sep "").
    cbn [upto_last_sep has_sep]. rewrite Ascii.eqb_refl. cbn [orb].
    now rewrite (upto_last_sep_none n Hn).
  - change (upto_last_sep (String c (p ++ "/" ++ n)) = String c (p ++ "/")).
    cbn [upto_last_sep].
    replace (has_sep (String c (p ++ "/" ++ n))) with true.
    + now rewrite IH.
    + cbn [has_sep]. rewrite has_sep_app.
      change (has_sep ("/" ++ n)) with (Ascii.eqb sep sep || has_sep n).
      rewrite Ascii.eqb_refl. cbn [orb]. now rewrite !orb_true_r.
Qed.

Lemma rstrip_app_sep (p : string) : rstrip sep (p ++ "/") = rstrip sep p.
Proof.
  induction p as [|c p IH]; [reflexivity|].
  change (rstrip sep (String c (p ++ "/")) = rstrip sep (String c p)).
  cbn [rstrip]. now rewrite IH.
Qed.

Lemma rstrip_no_trailing (p : string) :
  ends_with_sep p = false -> rstrip sep p = p.
Proof.
  induction p as [|c p IH]; [reflexivity|].
  destruct p as [|c' p'].
  - cbn. now intros ->.
  - intros H. change (ends_with_sep (String c' p') = false) in H.
    cbn [rstrip] in *. now rewrite (IH H).
Qed.

(** [dirname] of [p/n] is [p], for [p] not made of separators alone and
    not ending in one, and [n] a single component (or empty). *)
Lemma dirname_child (p n : string) :
  all_sep p = false ->
  ends_with_sep p = false ->
  has_sep n = false ->
  dirname (p ++ "/" ++ n) = p.
Proof.
  intros Hall Hend Hn. unfold dirname.
  rewrite (upto_last_sep_child p n Hn).
  replace (nonempty (p ++ "/")) with true by now destruct p.
  rewrite all_sep_app, Hall. cbn [andb negb].
  now rewrite rstrip_app_sep, rstrip_no_trailing.
Qed.

Lemma ends_with_sep_has_sep (d : string) :
  ends_with_sep d = true -> has_sep d = true.
Proof.
  induction d as [|c d IH]; [discriminate|].
  destruct d as [|c' d'].
  - cbn. now intros ->.
  - intros H. change (ends_with_sep (String c' d') = true) in H.
    cbn [has_sep] in *. rewrite (IH H). apply orb_true_r.
Qed.

Lemma ends_with_sep_app (a b : string) :
  nonempty b = true -> ends_with_sep (a ++ b) = ends_with_sep b.
Proof.
  intros Hb. induction a as [|c a IH]; [reflexivity|].
  change (ends_with_sep (String c (a ++ b)) = ends_with_sep b).
  destruct (a ++ b)%string as [|c' t] eqn:E.
  - destruct a; [simpl in E; subst b; discriminate Hb | discriminate E].
  - exact IH.
Qed.

(** Two levels up from [root/dir/name] is [root]. *)
Lemma dirname_grandchild (root dir name : string) :
  all_sep root = false ->
  ends_with_sep root = false ->
  nonempty dir = true ->
  has_sep dir = false ->
  has_sep name = false ->
  dirname (dirname (root ++ "/" ++ dir ++ "/" ++ name)) = root.
Proof.
  intros Hall Hend Hd Hds Hn.
  assert (Hde : ends_with_sep dir = false).
  { destruct (ends_with_sep dir) eqn:E; [|reflexivity].
    apply ends_with_sep_has_sep in E. congruence. }
  replace (root ++ "/" ++ dir ++ "/" ++ name)%string
    with ((root ++ "/" ++ dir) ++ "/" ++ name)%string
    by (now rewrite !append_assoc).
  rewrite dirname_child; try assumption.
  - now apply dirname_child.
  - rewrite all_sep_app, Hall. reflexivity.
  - rewrite ends_with_sep_app.
    + change (ends_with_sep ("/" ++ dir)) with (ends_with_sep (String sep dir)).
      destruct dir as [|c d]; [discriminate Hd | exact Hde].
    + reflexivity.
Qed.

End PathFacts.

(** ** More on runs *)

Module MoreRunFacts.
Import PyValue Text TextFacts FormatFacts Py Example RunFacts Observe.

Lemma unlines_app (ls ls' : list string) :
  unlines (ls ++ ls') = (unlines ls ++ unlines ls')%string.
Proof.
  induction ls as [|l ls IH]; cbn [unlines Datatypes.app]; [reflexivity|].
  now rewrite IH, !append_assoc.
Qed.

End MoreRunFacts.

(** ** Properties read off the source *)

Import FormatFacts Observe MoreRunFacts LongFacts.

Section MoreProgramRuns.

Variable os_path_abspath : string -> string -> string.
Variable os_path_dirname : string -> string.
Variable import_bindings_math : interp -> result bindings.

(** X1: loaded under any name other than ["__main__"], the module body
    extends [sys.path] and performs the import but does not call [main]:
    when the import succeeds it completes in the state the import was made
    in, and in every case nothing is printed and no binding is called. *)
Theorem imported_module_skips_main (file name : string) (s : interp) :
  String.eqb name "__main__" = false ->
  let r := script os_path_abspath os_path_dirname import_bindings_math file name s in
  (forall b : bindings,
      import_bindings_math (at_import os_path_abspath os_path_dirname file s) = Ok b ->
      r = (Ok tt, at_import os_path_abspath os_path_dirname file s))
  /\ stdout (snd r) = stdout s
  /\ history (snd r) = history s
  /\ sys_path (snd r)
     = (sys_path s
          ++ [os_path_dirname (os_path_dirname (os_path_abspath (cwd s) file))])%list.
Proof.
  intros Hname r. subst r. rewrite script_steps. cbv zeta. rewrite Hname.
  destruct (import_bindings_math _) as [b|e]; cbn [snd];
    (split; [intros b' Hb'; congruence || reflexivity|]);
    rewrite at_import_state; repeat split.
Qed.

(** X2: [sys.path.append] is not guarded by a membership test: a second
    run in the same interpreter appends the same entry again; and when
    the first run reaches the end of the script, so does the second, and
    it writes the same lines once more. *)
Theorem second_run_repeats_sys_path_entry (file : string) (s : interp) :
  let d := os_path_dirname (os_path_dirname (os_path_abspath (cwd s) file)) in
  let s1 := snd (run os_path_abspath os_path_dirname import_bindings_math file s) in
  let s2 := snd (run_twice os_path_abspath os_path_dirname import_bindings_math file s) in
  sys_path s2 = (sys_path s ++ [d; d])%list
  /\ (forall b : bindings,
         import_bindings_math (at_import os_path_abspath os_path_dirname file s) = Ok b ->
         import_bindings_math (at_import os_path_abspath os_path_dirname file s1) = Ok b ->
         fst (run os_path_abspath os_path_dirname import_bindings_math file s)
         = ExitSuccess ->
         fst (run_twice os_path_abspath os_path_dirname import_bindings_math file s)
         = ExitSuccess
         /\ lines (output s s2) = (lines (output s s1) ++ lines (output s s1))%list
         /\ List.length (lines (output s s2)) = 8%nat).
Proof.
  intros d s1 s2. split.
  - subst s2. unfold run_twice. fold s1.
    destruct (run_advanced os_path_abspath os_path_dirname import_bindings_math
                file s) as (ls1 & evs1 & _ & _ & Ha1).
    destruct (run_advanced os_path_abspath os_path_dirname import_bindings_math
                file s1) as (ls2 & evs2 & _ & _ & Ha2).
    apply advanced_from_start in Ha1 as (_ & _ & Hc1 & _ & Hp1 & _).
    apply advanced_from_start in Ha2 as (_ & _ & _ & _ & Hp2 & _).
    fold s1 in Hc1, Hp1. rewrite Hp2, Hp1, Hc1. fold d.
    now rewrite <- app_assoc.
  - intros b Hi1 Hi2 Hx.
    apply (run_exit_success _ _ _ file s b Hi1) in Hx.
    assert (E1 : s1 = snd (main b (at_import os_path_abspath os_path_dirname file s)))
      by (subst s1; apply run_state; exact Hi1).
    destruct (main_cases b (int_max_str_digits s))
      as [(r1 & r2 & r3 & r4 & H1 & H2 & H3 & H4) | (k & c & e & ls & Hk)].
    2: { destruct (main_stops b (at_import os_path_abspath os_path_dirname file s)
                     k c e ls Hk) as [Hr _]. congruence. }
    destruct (main_returns b (at_import os_path_abspath os_path_dirname file s)
                r1 r2 r3 r4 H1 H2 H3 H4) as [_ Ha1].
    rewrite <- E1 in Ha1.
    assert (Hlim : int_max_str_digits s1 = int_max_str_digits s)
      by (destruct Ha1 as (_ & _ & _ & _ & _ & Hlim & _); exact Hlim).
    rewrite <- Hlim in H1, H2, H3.
    destruct (main_returns b (at_import os_path_abspath os_path_dirname file s1)
                r1 r2 r3 r4 H1 H2 H3 H4) as [Hr2 Ha2].
    subst s2. unfold run_twice. fold s1.
    rewrite (run_state _ _ _ file s1 b Hi2).
    split; [exact (run_main_returns _ _ _ file s1 b Hi2 Hr2)|].
    apply advanced_from_start in Ha1 as (_ & _ & _ & _ & _ & Ho1 & Hw1 & _).
    apply advanced_from_start in Ha2 as (_ & _ & _ & _ & _ & Ho2 & _).
    pose proof (lines_of_results r1 r2 r3 r4) as Hl. cbv zeta in Hl.
    rewrite Hw1, Hl.
    unfold output at 1 2. rewrite Ho2, Ho1, append_assoc, drop_app, <- unlines_app.
    rewrite lines_unlines; [split; reflexivity|].
    apply Forall_app. split; apply one_line_results.
Qed.

(** X4: the program never leaves a partial line on standard output:
    however a run ends, what it wrote is a sequence of complete lines,
    each ended by a line feed. *)
Theorem output_is_whole_lines (file : string) (s : interp) :
  let s' := snd (run os_path_abspath os_path_dirname import_bindings_math file s) in
  unlines (lines (output s s')) = output s s'.
Proof.
  intros s'. subst s'.
  destruct (run_advanced os_path_abspath os_path_dirname import_bindings_math
              file s) as (ls & evs & _ & Hone & Ha).
  apply advanced_from_start in Ha as (_ & _ & _ & _ & _ & _ & -> & _).
  now rewrite (lines_unlines ls Hone).
Qed.

(** X5: after a successful import the number of lines on standard output
    tells whether the run reached the end of the script: there are never
    more than four, and there are four exactly when it did; a run that an
    exception ended, whichever it is, wrote fewer. *)
Theorem exit_success_iff_four_lines (file : string) (s : interp) (b : bindings) :
  import_bindings_math (at_import os_path_abspath os_path_dirname file s) = Ok b ->
  let t := run os_path_abspath os_path_dirname import_bindings_math file s in
  (List.length (lines (output s (snd t))) <= 4)%nat
  /\ (fst t = ExitSuccess <-> List.length (lines (output s (snd t))) = 4%nat).
Proof.
  intros Hi t. subst t.
  rewrite (run_exit_success _ _ _ file s b Hi), (run_state _ _ _ file s b Hi).
  destruct (main_summary b (at_import os_path_abspath os_path_dirname file s))
    as (ls & Hlen & Hone & _ & Ha & _ & Hiff).
  apply advanced_from_start in Ha as (_ & _ & _ & _ & _ & _ & -> & _).
  rewrite (lines_unlines ls Hone). split; assumption.
Qed.

End MoreProgramRuns.

(** X3: [main] consults the bindings at its four literal argument lists
    and nowhere else: two binding modules that agree on [add(5, 3)],
    [multiply(4.5, 2.0)], [square_root(16.0)] and [is_even(42)] give the
    same run, however they differ on other arguments. *)
Theorem main_reads_bindings_at_four_points (b b' : bindings) (s : interp) :
  add b (NInt 5) (NInt 3) = add b' (NInt 5) (NInt 3) ->
  multiply b (NFloat lit_4_5) (NFloat lit_2_0)
  = multiply b' (NFloat lit_4_5) (NFloat lit_2_0) ->
  square_root b (NFloat lit_16_0) = square_root b' (NFloat lit_16_0) ->
  is_even b 42 = is_even b' 42 ->
  main b s = main b' s.
Proof.
  intros H1 H2 H3 H4.
  unfold main, bind, call_add, call_multiply, call_square_root, call_is_even.
  now rewrite H1, H2, H3, H4.
Qed.

(** X7: [main] itself changes nothing of the interpreter but standard
    output, whatever the bindings return or raise; the change of
    [sys.path] is the module body's. *)
Theorem main_changes_only_stdout (b : bindings) (s : interp) :
  same_outside_stdout s (snd (main b s))
  /\ exists w : string, stdout (snd (main b s)) = stdout s ++ w.
Proof.
  destruct (main_summary b s)
    as (ls & _ & _ & _ & (Ha & He & Hc & Hf & Hp & Hl & Ho & _) & _).
  split; [now repeat split | now exists (unlines ls)].
Qed.

(** X8: a call that returns an [int] with more digits than the limit of
    the interpreter ends [main] at the f-string of that call: [ValueError]
    leaves [main], the line of that call is not printed and no later call
    is made. *)
Theorem unprintable_result_stops_main (b : bindings) (s : interp) (k : nat) (z : Z) :
  let s' := snd (main b s) in
  (1 <= k <= calls_made s s')%nat ->
  call_outcome b k = Some (Ok (PyInt z)) ->
  0 < int_max_str_digits s ->
  int_max_str_digits s < Z.of_nat (String.length (digits (Z.abs z))) ->
  str_digits_check_threshold < Z.of_nat (String.length (int_text z)) ->
  fst (main b s) = Raise (int_too_long (int_max_str_digits s))
  /\ calls_made s s' = k
  /\ List.length (lines (output s s')) = (k - 1)%nat.
Proof.
  intros s' Hn Hk Hpos Hdig Hlen. subst s'.
  assert (Hf : format_with (int_max_str_digits s) (PyInt z)
               = Raise (int_too_long (int_max_str_digits s)))
    by (apply str_int_too_long; assumption).
  destruct (format_raised_stops b s k _ _ Hn Hk Hf) as [ls Hs].
  destruct (main_stops b s k FormatRaised _ ls Hs) as [Hr Ha].
  rewrite (calls_made_advanced _ _ _ _ Ha).
  destruct (stops_at_length _ _ _ _ _ _ Hs) as [-> Hlt].
  apply advanced_output in Ha as [-> _].
  rewrite (lines_unlines ls (stops_at_one_line _ _ _ _ _ _ Hs)).
  split; [exact Hr|]. split; lia.
Qed.

(** X6: with POSIX paths, a script stored as [root/dir/name] puts [root]
    on [sys.path]: for [examples/example.py] that is the directory that
    holds the [bindings] package next to [examples]. *)
Theorem posix_run_adds_repository_root
    (os_path_abspath : string -> string -> string)
    (import_bindings_math : interp -> result bindings)
    (file root dir name : string) (s : interp) :
  os_path_abspath (cwd s) file = (root ++ "/" ++ dir ++ "/" ++ name)%string ->
  PosixPath.all_sep root = false ->
  PosixPath.ends_with_sep root = false ->
  PosixPath.nonempty dir = true ->
  PosixPath.has_sep dir = false ->
  PosixPath.has_sep name = false ->
  sys_path (snd (run os_path_abspath PosixPath.dirname import_bindings_math file s))
  = (sys_path s ++ [root])%list.
Proof.
  intros Hfile Hall Hend Hd Hds Hn.
  destruct (run_advanced os_path_abspath PosixPath.dirname import_bindings_math
              file s) as (ls & evs & _ & _ & Ha).
  apply advanced_from_start in Ha as (_ & _ & _ & _ & -> & _).
  now rewrite Hfile, PathFacts.dirname_grandchild.
Qed.

(** ** The further properties on sample runs *)

(** X1 on a sample: the file imported as module [example]. *)
Lemma imported_module_skips_main_witness :
  String.eqb "example" "__main__" = false
  /\ script PosixPath.abspath PosixPath.dirname Samples.import_math
       Samples.file "example" Samples.start
     = (Ok tt, at_import PosixPath.abspath PosixPath.dirname Samples.file Samples.start)
  /\ stdout (snd (script PosixPath.abspath PosixPath.dirname Samples.import_math
                    Samples.file "example" Samples.start))
     = "".
Proof.
  split; [reflexivity|].
  destruct (imported_module_skips_main PosixPath.abspath PosixPath.dirname
              Samples.import_math Samples.file "example" Samples.start eq_refl)
    as (Hr & Ho & _).
  split; [exact (Hr MathBindings.math eq_refl) | exact Ho].
Defined.

(** X2 on a sample: the program run twice on the arithmetic bindings. *)
Lemma second_run_repeats_sys_path_entry_witness :
  fst (Samples.run_posix Samples.import_math Samples.start) = ExitSuccess
  /\ sys_path (snd (run_twice PosixPath.abspath PosixPath.dirname Samples.import_math
                      Samples.file Samples.start))
     = ["/home/dev/cp2p/examples"; "/home/dev/cp2p"; "/home/dev/cp2p"]
  /\ lines (output Samples.start
              (snd (run_twice PosixPath.abspath PosixPath.dirname Samples.import_math
                      Samples.file Samples.start)))
     = (Samples.expected_lines ++ Samples.expected_lines)%list.
Proof.
  assert (Hx : fst (Samples.run_posix Samples.import_math Samples.start) = ExitSuccess)
    by (vm_compute; reflexivity).
  split; [exact Hx|].
  destruct (second_run_repeats_sys_path_entry PosixPath.abspath PosixPath.dirname
              Samples.import_math Samples.file Samples.start) as [Hp Hl].
  split.
  - rewrite Hp. vm_compute. reflexivity.
  - destruct (Hl MathBindings.math eq_refl eq_refl Hx) as (_ & H & _).
    rewrite H. vm_compute. reflexivity.
Defined.

(** X3 on a sample: the arithmetic bindings and bindings that give the
    same four answers to every call. *)
Lemma main_reads_bindings_at_four_points_witness :
  multiply MathBindings.math (NFloat lit_4_5) (NFloat lit_2_0)
  = multiply (constant (NInt 8) (NFloat (float_literal 90 (-1)))
                (NFloat (float_literal 40 (-1))) true)
      (NFloat lit_4_5) (NFloat lit_2_0)
  /\ main MathBindings.math Samples.start
     = main (constant (NInt 8) (NFloat (float_literal 90 (-1)))
               (NFloat (float_literal 40 (-1))) true)
         Samples.start.
Proof.
  split; [exact MathFacts.multiply_4_5_2_0|].
  apply (main_reads_bindings_at_four_points MathBindings.math
           (constant (NInt 8) (NFloat (float_literal 90 (-1)))
              (NFloat (float_literal 40 (-1))) true)
           Samples.start
           MathFacts.add_5_3 MathFacts.multiply_4_5_2_0
           MathFacts.square_root_16_0 MathFacts.is_even_42).
Defined.

(** X5 on two samples: a complete run, and one whose third call raises
    [SystemExit(0)], which ends the process quietly after two lines. *)
Lemma exit_success_iff_four_lines_witness :
  (fst (Samples.run_posix Samples.import_math Samples.start) = ExitSuccess
   /\ List.length
        (lines (output Samples.start
                  (snd (Samples.run_posix Samples.import_math Samples.start))))
      = 4%nat)
  /\ (fst (Samples.run_posix
             (fun _ => Ok (Samples.failing_with Samples.system_exit_0 3))
             Samples.start)
      = SystemExited (ExitInt 0)
      /\ List.length
           (lines (output Samples.start
                     (snd (Samples.run_posix
                             (fun _ => Ok (Samples.failing_with Samples.system_exit_0 3))
                             Samples.start))))
         <> 4%nat).
Proof.
  destruct (exit_success_iff_four_lines PosixPath.abspath PosixPath.dirname
              Samples.import_math Samples.file Samples.start MathBindings.math
              eq_refl) as [_ H1].
  destruct (exit_success_iff_four_lines PosixPath.abspath PosixPath.dirname
              (fun _ => Ok (Samples.failing_with Samples.system_exit_0 3))
              Samples.file Samples.start
              (Samples.failing_with Samples.system_exit_0 3) eq_refl) as [_ H3].
  unfold Samples.run_posix. split.
  - assert (Hx : fst (run PosixPath.abspath PosixPath.dirname Samples.import_math
                        Samples.file Samples.start) = ExitSuccess)
      by (vm_compute; reflexivity).
    split; [exact Hx | exact (proj1 H1 Hx)].
  - split; [vm_compute; reflexivity|].
    intros Hn. apply H3 in Hn. vm_compute in Hn. discriminate Hn.
Defined.

(** X6 on a sample: [/home/dev/cp2p/examples/example.py]. *)
Lemma posix_run_adds_repository_root_witness :
  PosixPath.abspath (cwd Samples.start) Samples.file
  = "/home/dev/cp2p/examples/example.py"
  /\ sys_path (snd (Samples.run_posix Samples.import_math Samples.start))
     = ["/home/dev/cp2p/examples"; "/home/dev/cp2p"].
Proof.
  split; [vm_compute; reflexivity|].
  exact (posix_run_adds_repository_root PosixPath.abspath Samples.import_math
           Samples.file "/home/dev/cp2p" "examples" "example.py" Samples.start
           eq_refl eq_refl eq_refl eq_refl eq_refl eq_refl).
Defined.

(** X8 on a sample: [add] returns an [int] of 641 digits and [multiply]
    would raise; started with the limit 640, [main] ends with [ValueError]
    after the one call, with nothing printed. *)
Lemma unprintable_result_stops_main_witness :
  call_outcome Samples.long_then_failing 1 = Some (Ok (PyInt (Samples.long_int 641)))
  /\ fst (main Samples.long_then_failing Samples.start_limited)
     = Raise (int_too_long 640)
  /\ calls_made Samples.start_limited
       (snd (main Samples.long_then_failing Samples.start_limited))
     = 1%nat
  /\ List.length
       (lines (output Samples.start_limited
                 (snd (main Samples.long_then_failing Samples.start_limited))))
     = 0%nat.
Proof.
  split; [reflexivity|].
  apply (unprintable_result_stops_main Samples.long_then_failing
           Samples.start_limited 1%nat (Samples.long_int 641)).
  - destruct (main_summary Samples.long_then_failing Samples.start_limited)
      as (ls & _ & _ & _ & _ & -> & _).
    lia.
  - reflexivity.
  - reflexivity.
  - rewrite (digits_abs _ (long_int_nonneg 641)), length_int_text_long.
    change (int_max_str_digits Samples.start_limited) with 640. lia.
  - rewrite length_int_text_long. unfold str_digits_check_threshold. lia.
Defined.
